(** * health-link-aid: consultation lifecycle, row-level security and triggers

    A shallow embedding of the database layer of the repository: the tables
    [profiles], [consultations] and [notifications] of the migrations under
    [supabase/migrations], their row-level security policies, the triggers
    [update_updated_at_column], [notify_consultation_status_change] and
    [handle_new_user], and the three client calls that write to the store
    ([handleSubmit] of the booking page, [confirmPayment] of the payment page
    and [updateConsultationStatus] of the admin dashboard).

    Tables are finite maps from the primary key to the remaining columns.
    A statement returns a [result]: the new store and the number of rows it
    affected, or the error that rolled it back. *)

From stdpp Require Import gmap strings list fin_maps sorting.
From Stdlib Require Import ZArith.

Local Open Scope Z_scope.
Local Open Scope string_scope.

(** ** Column types *)

(** [UUID]; [gen_random_uuid()] is modelled by picking an unused key. *)
Abbreviation uuid := positive.

(** [TIMESTAMP WITH TIME ZONE]: microseconds since the epoch. *)
Abbreviation timestamptz := Z.

(** [DECIMAL(10,2)]: the value in hundredths, so [50.00] is [5000]. *)
Abbreviation decimal_10_2 := Z.

Definition decimal_10_2_ok (a : Z) : bool := bool_decide (Z.abs a < 10 ^ 10).

(** [DATE] and [TIME]: a row keeps the text it was given, and the store
    decides whether a text is a date or a time. The two input functions are
    PostgreSQL's and not the repository's, so the statements that read such
    texts take them as parameters. *)
Class datetime_input := {
  date_in : string → bool;
  time_in : string → bool
}.

(** ** Tables *)

(** [auth.users], the part of it the migrations read: [id] is the key. *)
Record auth_user := {
  email : option string;
  raw_full_name : option string          (* raw_user_meta_data->>'full_name' *)
}.

(** [public.profiles] (migration 20250916144359); [user_id] is the key. *)
Record profile := {
  p_full_name : option string;
  p_role : string;
  p_created_at : timestamptz;
  p_updated_at : timestamptz
}.

(** [public.consultations]; [id] is the key. [preferred_date] and
    [preferred_time] are kept in the text form the client sends. *)
Record consultation := {
  c_user_id : uuid;
  c_doctor_name : string;
  c_consultation_type : string;
  c_preferred_date : string;
  c_preferred_time : string;
  c_symptoms : string;
  c_status : string;
  c_payment_status : string;
  c_amount : decimal_10_2;
  c_bank_account_id : option uuid;
  c_admin_notes : option string;
  c_created_at : timestamptz;
  c_updated_at : timestamptz
}.

(** [public.notifications]; [id] is the key. *)
Record notification := {
  n_user_id : uuid;
  n_consultation_id : option uuid;
  n_title : string;
  n_message : string;
  n_is_read : bool;
  n_created_at : timestamptz
}.

Record db := {
  auth_users : gmap uuid auth_user;
  profiles : gmap uuid profile;
  consultations : gmap uuid consultation;
  notifications : gmap uuid notification
}.

Definition empty_db : db :=
  {| auth_users := ∅; profiles := ∅; consultations := ∅; notifications := ∅ |}.

Definition with_profiles (m : gmap uuid profile) (d : db) : db :=
  {| auth_users := auth_users d; profiles := m;
     consultations := consultations d; notifications := notifications d |}.

Definition with_consultations (m : gmap uuid consultation) (d : db) : db :=
  {| auth_users := auth_users d; profiles := profiles d;
     consultations := m; notifications := notifications d |}.

Definition with_notifications (m : gmap uuid notification) (d : db) : db :=
  {| auth_users := auth_users d; profiles := profiles d;
     consultations := consultations d; notifications := m |}.

Definition with_auth_users (m : gmap uuid auth_user) (d : db) : db :=
  {| auth_users := m; profiles := profiles d;
     consultations := consultations d; notifications := notifications d |}.

(** ** Statement results *)

Inductive sql_error :=
  | invalid_datetime_format  (* a text that is no DATE or TIME: 22007, 22008 *)
  | not_null_violation
  | check_violation
  | foreign_key_violation
  | unique_violation
  | rls_violation.          (* new row violates row-level security policy *)

Inductive result :=
  | Ok (d : db) (rows : nat)
  | Err (e : sql_error).

(** The store after a statement issued on [d]: an error rolls back. *)
Definition db_after (r : result) (d : db) : db :=
  match r with Ok d' _ => d' | Err _ => d end.

Definition rows_affected (r : result) : nat :=
  match r with Ok _ n => n | Err _ => 0%nat end.

(** ** The session *)

(** [auth.uid() = user_id]: [auth.uid()] is NULL for an anonymous session,
    and a NULL comparison never passes a policy. *)
Definition uid_eq (uid : option uuid) (owner : uuid) : bool :=
  bool_decide (uid = Some owner).

(** [get_current_user_role()]:
    [COALESCE((SELECT role FROM profiles WHERE user_id = auth.uid()), 'user')]. *)
Definition get_current_user_role (d : db) (uid : option uuid) : string :=
  default "user" (uid ≫= λ u, p_role <$> profiles d !! u).

(** ** Row-level security *)

Inductive command := SELECT | INSERT | UPDATE | DELETE | ALL.

Definition command_eqb (a b : command) : bool :=
  match a, b with
  | SELECT, SELECT | INSERT, INSERT | UPDATE, UPDATE | DELETE, DELETE | ALL, ALL => true
  | _, _ => false
  end.

(** A predicate of a policy sees the store (for the role lookup), the
    session's [auth.uid()], the primary key of the row and the row. *)
Definition row_pred (row : Type) : Type :=
  db → option uuid → uuid → row → bool.

Record policy (row : Type) := mk_policy {
  pol_name : string;
  pol_for : command;
  pol_using : option (row_pred row);
  pol_with_check : option (row_pred row)
}.
Arguments mk_policy {row}.
Arguments pol_name {row}.
Arguments pol_for {row}.
Arguments pol_using {row}.
Arguments pol_with_check {row}.

Definition applies_to {row} (cmd : command) (p : policy row) : bool :=
  command_eqb (pol_for p) cmd || command_eqb (pol_for p) ALL.

(** All policies are permissive: a row passes when some applicable policy's
    USING expression holds; with no applicable policy nothing passes. *)
Definition rls_using {row} (pols : list (policy row)) (cmd : command) : row_pred row :=
  λ d uid k r,
    existsb (λ p, applies_to cmd p &&
                  match pol_using p with Some f => f d uid k r | None => false end) pols.

(** The check of a new row: WITH CHECK, and the USING expression where a
    policy declares no WITH CHECK. *)
Definition rls_with_check {row} (pols : list (policy row)) (cmd : command) : row_pred row :=
  λ d uid k r,
    existsb (λ p, applies_to cmd p &&
                  match pol_with_check p, pol_using p with
                  | Some f, _ => f d uid k r
                  | None, Some f => f d uid k r
                  | None, None => false
                  end) pols.

(** An UPDATE with a WHERE clause on the table's columns also needs read
    access: the SELECT policies filter the existing row and are checked on
    the new one. *)
Definition update_target {row} (pols : list (policy row)) : row_pred row :=
  λ d uid k r, rls_using pols UPDATE d uid k r && rls_using pols SELECT d uid k r.

Definition update_check {row} (pols : list (policy row)) : row_pred row :=
  λ d uid k r, rls_with_check pols UPDATE d uid k r && rls_using pols SELECT d uid k r.

Definition is_admin : ∀ row, row_pred row :=
  λ _ d uid _ _, bool_decide (get_current_user_role d uid = "admin").

Definition profiles_policies : list (policy profile) := [
  mk_policy "Users can view their own profile" SELECT
    (Some (λ _ uid user_id _, uid_eq uid user_id)) None;
  mk_policy "Users can update their own profile" UPDATE
    (Some (λ _ uid user_id _, uid_eq uid user_id)) None
].

Definition consultations_policies : list (policy consultation) := [
  mk_policy "Users can view their own consultations" SELECT
    (Some (λ _ uid _ r, uid_eq uid (c_user_id r))) None;
  mk_policy "Users can create their own consultations" INSERT
    None (Some (λ _ uid _ r, uid_eq uid (c_user_id r)));
  mk_policy "Users can update their own consultations" UPDATE
    (Some (λ _ uid _ r, uid_eq uid (c_user_id r))) None;
  mk_policy "Admins can view all consultations" SELECT
    (Some (is_admin consultation)) None;
  mk_policy "Admins can update all consultations" UPDATE
    (Some (is_admin consultation)) None
].

Definition notifications_policies : list (policy notification) := [
  mk_policy "Users can view their own notifications" SELECT
    (Some (λ _ uid _ r, uid_eq uid (n_user_id r))) None;
  mk_policy "Users can update their own notifications" UPDATE
    (Some (λ _ uid _ r, uid_eq uid (n_user_id r))) None;
  mk_policy "System can insert notifications" INSERT
    None (Some (λ _ _ _ _, true))
].

(** What the SELECT and UPDATE policies of [consultations] come to. *)
Definition may_access (d : db) (uid : option uuid) (r : consultation) : bool :=
  uid_eq uid (c_user_id r) || bool_decide (get_current_user_role d uid = "admin").

(** ** Table constraints *)

(** The CHECK constraints of [consultations] and the range of [amount]. *)
Definition consultations_check (r : consultation) : bool :=
  bool_decide (c_consultation_type r ∈ ["video_call"; "phone_call"; "chat"])
  && bool_decide (c_status r ∈ ["pending"; "approved"; "declined"; "completed"; "cancelled"])
  && bool_decide (c_payment_status r ∈ ["unpaid"; "paid"; "refunded"])
  && decimal_10_2_ok (c_amount r).

(** [CHECK (role IN ('user', 'admin'))]. *)
Definition profiles_check (r : profile) : bool :=
  bool_decide (p_role r ∈ ["user"; "admin"]).

(** [REFERENCES auth.users(id)]. *)
Definition references_auth_users (d : db) (u : uuid) : bool :=
  bool_decide (is_Some (auth_users d !! u)).

(** [REFERENCES public.consultations(id)] on a nullable column. *)
Definition references_consultations (d : db) (c : option uuid) : bool :=
  match c with
  | None => true
  | Some k => bool_decide (is_Some (consultations d !! k))
  end.

(** ** SQL expressions of the notification trigger *)

(** [a || b] on text: NULL when either side is NULL. *)
Definition sql_concat (a b : option string) : option string :=
  match a, b with
  | Some x, Some y => Some (x +:+ y)
  | _, _ => None
  end.

(** [COALESCE(a, b)]. *)
Definition coalesce (a b : option string) : option string :=
  match a with
  | Some x => Some x
  | None => b
  end.

(** The title CASE of the trigger; a CASE without ELSE yields NULL. *)
Definition notification_title (NEW : consultation) : option string :=
  if bool_decide (c_status NEW = "approved") then Some "Consultation Approved ✅"
  else if bool_decide (c_status NEW = "declined") then Some "Consultation Declined ❌"
  else None.

(** The message CASE of the trigger. *)
Definition notification_message (NEW : consultation) : option string :=
  if bool_decide (c_status NEW = "approved") then
    Some "Your consultation request has been approved! You will receive further details soon."
  else if bool_decide (c_status NEW = "declined") then
    sql_concat (Some "Your consultation request has been declined. ")
      (coalesce (sql_concat (Some "Reason: ") (c_admin_notes NEW))
                (Some "Please contact support for more information."))
  else None.

(** [INSERT INTO notifications (user_id, consultation_id, title, message)]:
    [id], [is_read] and [created_at] take their defaults. The trigger is
    SECURITY DEFINER, and the INSERT policy is [WITH CHECK (true)]. *)
Definition insert_notification (now : timestamptz) (user_id : uuid)
    (consultation_id : option uuid) (title message : option string) (d : db)
  : result :=
  match title, message with
  | Some t, Some m =>
      if negb (references_auth_users d user_id
               && references_consultations d consultation_id)
      then Err foreign_key_violation
      else
        Ok (with_notifications
              (<[fresh (dom (notifications d)) :=
                  {| n_user_id := user_id; n_consultation_id := consultation_id;
                     n_title := t; n_message := m;
                     n_is_read := false; n_created_at := now |}]> (notifications d)) d) 1
  | _, _ => Err not_null_violation
  end.

(** The row the trigger inserts for [NEW], when both CASE expressions
    yield a value. *)
Definition notification_for (now : timestamptz) (id : uuid) (NEW : consultation)
    (t m : string) : notification :=
  {| n_user_id := c_user_id NEW; n_consultation_id := Some id;
     n_title := t; n_message := m; n_is_read := false; n_created_at := now |}.

(** The guard of [notify_consultation_status_change]:
    [NEW.status != OLD.status AND NEW.status IN ('approved', 'declined')]. *)
Definition status_change_notifies (OLD NEW : consultation) : bool :=
  bool_decide (c_status NEW ≠ c_status OLD)
  && bool_decide (c_status NEW ∈ ["approved"; "declined"]).

(** [notify_consultation_status_change()], AFTER UPDATE FOR EACH ROW on
    [consultations]; [id] is [NEW.id]. An error raised by the INSERT aborts
    the statement that fired the trigger. *)
Definition notify_consultation_status_change (now : timestamptz) (id : uuid)
    (OLD NEW : consultation) (d : db) : result :=
  if status_change_notifies OLD NEW then
    insert_notification now (c_user_id NEW) (Some id)
      (notification_title NEW) (notification_message NEW) d
  else Ok d 0.

(** [update_updated_at_column()], BEFORE UPDATE FOR EACH ROW:
    [NEW.updated_at = now()]. *)
Definition update_updated_at_column (now : timestamptz) (NEW : consultation) : consultation :=
  {| c_user_id := c_user_id NEW; c_doctor_name := c_doctor_name NEW;
     c_consultation_type := c_consultation_type NEW;
     c_preferred_date := c_preferred_date NEW; c_preferred_time := c_preferred_time NEW;
     c_symptoms := c_symptoms NEW; c_status := c_status NEW;
     c_payment_status := c_payment_status NEW; c_amount := c_amount NEW;
     c_bank_account_id := c_bank_account_id NEW; c_admin_notes := c_admin_notes NEW;
     c_created_at := c_created_at NEW; c_updated_at := now |}.

(** The same trigger function on [profiles] ([update_profiles_updated_at]). *)
Definition update_updated_at_column_profiles (now : timestamptz) (NEW : profile) : profile :=
  {| p_full_name := p_full_name NEW; p_role := p_role NEW;
     p_created_at := p_created_at NEW; p_updated_at := now |}.

(** ** UPDATE consultations *)

(** The SET clause: [None] leaves a column alone. The key [id] is not
    assignable here. *)
Record consultation_set := {
  set_user_id : option uuid;
  set_doctor_name : option string;
  set_consultation_type : option string;
  set_preferred_date : option string;
  set_preferred_time : option string;
  set_symptoms : option string;
  set_status : option string;
  set_payment_status : option string;
  set_amount : option decimal_10_2;
  set_bank_account_id : option (option uuid);
  set_admin_notes : option (option string);
  set_created_at : option timestamptz;
  set_updated_at : option timestamptz
}.

Definition apply_set (s : consultation_set) (r : consultation) : consultation :=
  {| c_user_id := default (c_user_id r) (set_user_id s);
     c_doctor_name := default (c_doctor_name r) (set_doctor_name s);
     c_consultation_type := default (c_consultation_type r) (set_consultation_type s);
     c_preferred_date := default (c_preferred_date r) (set_preferred_date s);
     c_preferred_time := default (c_preferred_time r) (set_preferred_time s);
     c_symptoms := default (c_symptoms r) (set_symptoms s);
     c_status := default (c_status r) (set_status s);
     c_payment_status := default (c_payment_status r) (set_payment_status s);
     c_amount := default (c_amount r) (set_amount s);
     c_bank_account_id := default (c_bank_account_id r) (set_bank_account_id s);
     c_admin_notes := default (c_admin_notes r) (set_admin_notes s);
     c_created_at := default (c_created_at r) (set_created_at s);
     c_updated_at := default (c_updated_at r) (set_updated_at s) |}.

(** The row the statement writes: the SET clause, then the BEFORE trigger. *)
Definition updated_row (now : timestamptz) (s : consultation_set) (OLD : consultation)
  : consultation :=
  update_updated_at_column now (apply_set s OLD).

(** The texts a SET clause assigns to [preferred_date] and [preferred_time]
    are read as a date and as a time. *)
Definition set_literals_ok `{DT : !datetime_input} (s : consultation_set) : bool :=
  from_option date_in true (set_preferred_date s)
  && from_option time_in true (set_preferred_time s).

(** [UPDATE consultations SET ... WHERE id = id] in a session whose
    [auth.uid()] is [uid], in a transaction whose [now()] is [now]. A row
    the policies hide is not a target: zero rows, no error. The values of
    the SET clause are read when a row is written. *)
Definition update_consultations `{DT : !datetime_input} (now : timestamptz)
    (uid : option uuid) (id : uuid) (s : consultation_set) (d : db) : result :=
  match consultations d !! id with
  | None => Ok d 0
  | Some OLD =>
      if negb (update_target consultations_policies d uid id OLD) then Ok d 0
      else if negb (set_literals_ok s) then Err invalid_datetime_format
      else
        let NEW := updated_row now s OLD in
        if negb (update_check consultations_policies d uid id NEW) then Err rls_violation
        else if negb (consultations_check NEW) then Err check_violation
        else if negb (bool_decide (c_user_id NEW = c_user_id OLD)
                      || references_auth_users d (c_user_id NEW))
        then Err foreign_key_violation
        else
          match notify_consultation_status_change now id OLD NEW
                  (with_consultations (<[id := NEW]> (consultations d)) d) with
          | Ok d' _ => Ok d' 1
          | Err e => Err e
          end
  end.

(** ** INSERT INTO consultations *)

(** The column list of an INSERT: [None] omits the column, which then takes
    its DEFAULT (NULL where none is declared). [id] is always defaulted. *)
Record consultation_insert := {
  ins_user_id : option uuid;
  ins_doctor_name : option string;
  ins_consultation_type : option string;
  ins_preferred_date : option string;
  ins_preferred_time : option string;
  ins_symptoms : option string;
  ins_status : option string;
  ins_payment_status : option string;
  ins_amount : option decimal_10_2;
  ins_bank_account_id : option uuid;
  ins_admin_notes : option string;
  ins_created_at : option timestamptz;
  ins_updated_at : option timestamptz
}.

(** The row an INSERT builds, or [None] when a NOT NULL column without a
    default is missing. *)
Definition inserted_row (now : timestamptz) (i : consultation_insert) : option consultation :=
  user_id ← ins_user_id i;
  doctor_name ← ins_doctor_name i;
  consultation_type ← ins_consultation_type i;
  preferred_date ← ins_preferred_date i;
  preferred_time ← ins_preferred_time i;
  symptoms ← ins_symptoms i;
  Some {| c_user_id := user_id; c_doctor_name := doctor_name;
          c_consultation_type := consultation_type;
          c_preferred_date := preferred_date; c_preferred_time := preferred_time;
          c_symptoms := symptoms;
          c_status := default "pending" (ins_status i);
          c_payment_status := default "unpaid" (ins_payment_status i);
          c_amount := default 5000 (ins_amount i);
          c_bank_account_id := ins_bank_account_id i;
          c_admin_notes := ins_admin_notes i;
          c_created_at := default now (ins_created_at i);
          c_updated_at := default now (ins_updated_at i) |}.

(** The texts an INSERT gives for [preferred_date] and [preferred_time] are
    read as a date and as a time. *)
Definition insert_literals_ok `{DT : !datetime_input} (i : consultation_insert) : bool :=
  from_option date_in true (ins_preferred_date i)
  && from_option time_in true (ins_preferred_time i).

(** The row the INSERT policies are checked on: they come before the
    NOT NULL constraints and read [user_id] only, so the other columns an
    INSERT leaves out are blank here. *)
Definition row_for_policies (now : timestamptz) (user_id : uuid) (i : consultation_insert)
  : consultation :=
  {| c_user_id := user_id;
     c_doctor_name := default "" (ins_doctor_name i);
     c_consultation_type := default "" (ins_consultation_type i);
     c_preferred_date := default "" (ins_preferred_date i);
     c_preferred_time := default "" (ins_preferred_time i);
     c_symptoms := default "" (ins_symptoms i);
     c_status := default "pending" (ins_status i);
     c_payment_status := default "unpaid" (ins_payment_status i);
     c_amount := default 5000 (ins_amount i);
     c_bank_account_id := ins_bank_account_id i;
     c_admin_notes := ins_admin_notes i;
     c_created_at := default now (ins_created_at i);
     c_updated_at := default now (ins_updated_at i) |}.

(** [INSERT INTO consultations (...)] in a session: the values are read,
    the INSERT policy is checked ([auth.uid() = user_id] does not hold for a
    missing [user_id]), then the NOT NULL and CHECK constraints and the
    foreign key. *)
Definition insert_consultations `{DT : !datetime_input} (now : timestamptz)
    (uid : option uuid) (i : consultation_insert) (d : db) : result :=
  let id := fresh (dom (consultations d)) in
  if negb (insert_literals_ok i) then Err invalid_datetime_format
  else
    match ins_user_id i with
    | None => Err rls_violation
    | Some user_id =>
        if negb (rls_with_check consultations_policies INSERT d uid id
                   (row_for_policies now user_id i))
        then Err rls_violation
        else
          match inserted_row now i with
          | None => Err not_null_violation
          | Some NEW =>
              if negb (consultations_check NEW) then Err check_violation
              else if negb (references_auth_users d (c_user_id NEW))
              then Err foreign_key_violation
              else Ok (with_consultations (<[id := NEW]> (consultations d)) d) 1
          end
    end.

(** ** SELECT *)

(** [SELECT * FROM consultations]: the rows the session may see. *)
Definition select_consultations (d : db) (uid : option uuid) : gmap uuid consultation :=
  filter (λ kr, rls_using consultations_policies SELECT d uid kr.1 kr.2) (consultations d).

(** [SELECT * FROM notifications]. *)
Definition select_notifications (d : db) (uid : option uuid) : gmap uuid notification :=
  filter (λ kr, rls_using notifications_policies SELECT d uid kr.1 kr.2) (notifications d).

(** ** UPDATE notifications *)

Record notification_set := {
  nset_user_id : option uuid;
  nset_consultation_id : option (option uuid);
  nset_title : option string;
  nset_message : option string;
  nset_is_read : option bool;
  nset_created_at : option timestamptz
}.

Definition apply_nset (s : notification_set) (r : notification) : notification :=
  {| n_user_id := default (n_user_id r) (nset_user_id s);
     n_consultation_id := default (n_consultation_id r) (nset_consultation_id s);
     n_title := default (n_title r) (nset_title s);
     n_message := default (n_message r) (nset_message s);
     n_is_read := default (n_is_read r) (nset_is_read s);
     n_created_at := default (n_created_at r) (nset_created_at s) |}.

(** [UPDATE notifications SET ... WHERE id = id]; the table has no trigger. *)
Definition update_notifications (uid : option uuid) (id : uuid)
    (s : notification_set) (d : db) : result :=
  match notifications d !! id with
  | None => Ok d 0
  | Some OLD =>
      if negb (update_target notifications_policies d uid id OLD) then Ok d 0
      else
        let NEW := apply_nset s OLD in
        if negb (update_check notifications_policies d uid id NEW) then Err rls_violation
        else if negb ((bool_decide (n_user_id NEW = n_user_id OLD)
                       || references_auth_users d (n_user_id NEW))
                      && (bool_decide (n_consultation_id NEW = n_consultation_id OLD)
                          || references_consultations d (n_consultation_id NEW)))
        then Err foreign_key_violation
        else Ok (with_notifications (<[id := NEW]> (notifications d)) d) 1
  end.

(** mark-notification-read: [SET is_read = true]. *)
Definition mark_read : notification_set :=
  {| nset_user_id := None; nset_consultation_id := None; nset_title := None;
     nset_message := None; nset_is_read := Some true; nset_created_at := None |}.

(** ** UPDATE profiles *)

(** The SET clause on [profiles]; the key [user_id] is not assignable here. *)
Record profile_set := {
  pset_full_name : option (option string);
  pset_role : option string;
  pset_created_at : option timestamptz;
  pset_updated_at : option timestamptz
}.

Definition apply_pset (s : profile_set) (r : profile) : profile :=
  {| p_full_name := default (p_full_name r) (pset_full_name s);
     p_role := default (p_role r) (pset_role s);
     p_created_at := default (p_created_at r) (pset_created_at s);
     p_updated_at := default (p_updated_at r) (pset_updated_at s) |}.

(** [UPDATE profiles SET ... WHERE user_id = user_id]. *)
Definition update_profiles (now : timestamptz) (uid : option uuid) (user_id : uuid)
    (s : profile_set) (d : db) : result :=
  match profiles d !! user_id with
  | None => Ok d 0
  | Some OLD =>
      if negb (update_target profiles_policies d uid user_id OLD) then Ok d 0
      else
        let NEW := update_updated_at_column_profiles now (apply_pset s OLD) in
        if negb (update_check profiles_policies d uid user_id NEW) then Err rls_violation
        else if negb (profiles_check NEW) then Err check_violation
        else Ok (with_profiles (<[user_id := NEW]> (profiles d)) d) 1
  end.

(** [SET role = r]. *)
Definition set_role (r : string) : profile_set :=
  {| pset_full_name := None; pset_role := Some r;
     pset_created_at := None; pset_updated_at := None |}.

(** ** Provisioning *)

(** [handle_new_user()], AFTER INSERT on [auth.users], SECURITY DEFINER:
    an upsert of the profile whose role is decided by the e-mail address. *)
Definition handle_new_user (now : timestamptz) (id : uuid) (NEW : auth_user) (d : db) : db :=
  let role :=
    if bool_decide (email NEW = Some "omatulemarvellous721@gmail.com") then "admin"
    else "user" in
  match profiles d !! id with
  | None =>
      with_profiles (<[id := {| p_full_name := raw_full_name NEW; p_role := role;
                                p_created_at := now; p_updated_at := now |}]> (profiles d)) d
  | Some OLD =>                       (* ON CONFLICT (user_id) DO UPDATE *)
      with_profiles (<[id := update_updated_at_column_profiles now
                               {| p_full_name := raw_full_name NEW; p_role := role;
                                  p_created_at := p_created_at OLD;
                                  p_updated_at := p_updated_at OLD |}]> (profiles d)) d
  end.

(** A new identity: the row of [auth.users] and the trigger it fires. *)
Definition sign_up (now : timestamptz) (id : uuid) (u : auth_user) (d : db) : result :=
  match auth_users d !! id with
  | Some _ => Err unique_violation
  | None => Ok (handle_new_user now id u (with_auth_users (<[id := u]> (auth_users d)) d)) 1
  end.

(** ** Client calls *)

(** The form state of the booking page. *)
Record formData := {
  fd_doctor_name : string;
  fd_consultation_type : string;
  fd_preferred_date : string;
  fd_preferred_time : string;
  fd_symptoms : string
}.

(** [handleSubmit] of the booking page: without a user nothing is sent;
    otherwise [insert([{ user_id: user.id, ...formData }])]. *)
Definition handleSubmit `{DT : !datetime_input} (now : timestamptz) (user : option uuid)
    (fd : formData) (d : db) : result :=
  match user with
  | None => Ok d 0
  | Some id =>
      insert_consultations now user
        {| ins_user_id := Some id;
           ins_doctor_name := Some (fd_doctor_name fd);
           ins_consultation_type := Some (fd_consultation_type fd);
           ins_preferred_date := Some (fd_preferred_date fd);
           ins_preferred_time := Some (fd_preferred_time fd);
           ins_symptoms := Some (fd_symptoms fd);
           ins_status := None; ins_payment_status := None; ins_amount := None;
           ins_bank_account_id := None; ins_admin_notes := None;
           ins_created_at := None; ins_updated_at := None |} d
  end.

(** [getConsultationTypeAmount] of the payment page, in whole currency
    units: [amounts[type] || 50]. *)
Definition getConsultationTypeAmount (type : string) : Z :=
  if bool_decide (type = "video_call") then 50
  else if bool_decide (type = "phone_call") then 40
  else if bool_decide (type = "chat") then 30
  else 50.

(** [SET status = st]. *)
Definition status_set (st : string) : consultation_set :=
  {| set_user_id := None; set_doctor_name := None; set_consultation_type := None;
     set_preferred_date := None; set_preferred_time := None; set_symptoms := None;
     set_status := Some st; set_payment_status := None; set_amount := None;
     set_bank_account_id := None; set_admin_notes := None;
     set_created_at := None; set_updated_at := None |}.

(** The object [confirmPayment] passes to [update]:
    [{ payment_status: 'paid', bank_account_id: selectedBank }]. *)
Definition payment_set (selectedBank : uuid) : consultation_set :=
  {| set_user_id := None; set_doctor_name := None; set_consultation_type := None;
     set_preferred_date := None; set_preferred_time := None; set_symptoms := None;
     set_status := None; set_payment_status := Some "paid"; set_amount := None;
     set_bank_account_id := Some (Some selectedBank); set_admin_notes := None;
     set_created_at := None; set_updated_at := None |}.

(** [confirmPayment] of the payment page: [consultation] is the id of the
    consultation held in the page state, [selectedBank] the chosen account;
    with either missing the function returns at once. *)
Definition confirmPayment `{DT : !datetime_input} (now : timestamptz) (user : option uuid)
    (consultation selectedBank : option uuid) (d : db) : result :=
  match consultation, selectedBank with
  | Some id, Some bank => update_consultations now user id (payment_set bank) d
  | _, _ => Ok d 0
  end.

(** The two statuses the admin dashboard can set. *)
Inductive admin_decision := approved | declined.

Definition decision_text (s : admin_decision) : string :=
  match s with approved => "approved" | declined => "declined" end.

(** [updateConsultationStatus] of the admin dashboard:
    [update({ status: newStatus, admin_notes: adminNotes })]; [adminNotes]
    is the text of the notes box, the empty string when nothing was typed. *)
Definition updateConsultationStatus `{DT : !datetime_input} (now : timestamptz)
    (user : option uuid) (consultationId : uuid) (newStatus : admin_decision)
    (adminNotes : string) (d : db) : result :=
  update_consultations now user consultationId
    {| set_user_id := None; set_doctor_name := None; set_consultation_type := None;
       set_preferred_date := None; set_preferred_time := None; set_symptoms := None;
       set_status := Some (decision_text newStatus); set_payment_status := None;
       set_amount := None; set_bank_account_id := None;
       set_admin_notes := Some (Some adminNotes);
       set_created_at := None; set_updated_at := None |} d.

(** ** Further statements on the three tables *)

(** The rows a DELETE with a WHERE clause can reach: the DELETE policies and,
    for the read of the WHERE clause, the SELECT policies. *)
Definition delete_target {row} (pols : list (policy row)) : row_pred row :=
  λ d uid k r, rls_using pols DELETE d uid k r && rls_using pols SELECT d uid k r.

(** [DELETE FROM consultations WHERE id = id]; the notifications that
    reference the row go with it (ON DELETE CASCADE). *)
Definition delete_consultations (uid : option uuid) (id : uuid) (d : db) : result :=
  match consultations d !! id with
  | None => Ok d 0
  | Some OLD =>
      if negb (delete_target consultations_policies d uid id OLD) then Ok d 0
      else
        Ok (with_notifications
              (filter (λ kr, n_consultation_id kr.2 ≠ Some id) (notifications d))
              (with_consultations (delete id (consultations d)) d)) 1
  end.

(** [DELETE FROM notifications WHERE id = id]. *)
Definition delete_notifications (uid : option uuid) (id : uuid) (d : db) : result :=
  match notifications d !! id with
  | None => Ok d 0
  | Some OLD =>
      if negb (delete_target notifications_policies d uid id OLD) then Ok d 0
      else Ok (with_notifications (delete id (notifications d)) d) 1
  end.

(** [DELETE FROM profiles WHERE user_id = user_id]. *)
Definition delete_profiles (uid : option uuid) (user_id : uuid) (d : db) : result :=
  match profiles d !! user_id with
  | None => Ok d 0
  | Some OLD =>
      if negb (delete_target profiles_policies d uid user_id OLD) then Ok d 0
      else Ok (with_profiles (delete user_id (profiles d)) d) 1
  end.

(** The column list of an INSERT into [notifications] sent by a client. *)
Record notification_insert := {
  nins_user_id : option uuid;
  nins_consultation_id : option uuid;
  nins_title : option string;
  nins_message : option string;
  nins_is_read : option bool;
  nins_created_at : option timestamptz
}.

Definition inserted_notification (now : timestamptz) (i : notification_insert)
  : option notification :=
  user_id ← nins_user_id i;
  title ← nins_title i;
  message ← nins_message i;
  Some {| n_user_id := user_id; n_consultation_id := nins_consultation_id i;
          n_title := title; n_message := message;
          n_is_read := default false (nins_is_read i);
          n_created_at := default now (nins_created_at i) |}.

(** [INSERT INTO notifications (...)] in a session: the INSERT policy of the
    table is the only gate. *)
Definition insert_notifications (now : timestamptz) (uid : option uuid)
    (i : notification_insert) (d : db) : result :=
  match inserted_notification now i with
  | None => Err not_null_violation
  | Some NEW =>
      let id := fresh (dom (notifications d)) in
      if negb (rls_with_check notifications_policies INSERT d uid id NEW) then Err rls_violation
      else if negb (references_auth_users d (n_user_id NEW)
                    && references_consultations d (n_consultation_id NEW))
      then Err foreign_key_violation
      else Ok (with_notifications (<[id := NEW]> (notifications d)) d) 1
  end.

(** [SELECT * FROM profiles]. *)
Definition select_profiles (d : db) (uid : option uuid) : gmap uuid profile :=
  filter (λ kr, rls_using profiles_policies SELECT d uid kr.1 kr.2) (profiles d).

(** Removing an identity from [auth.users]: every foreign key on it is
    ON DELETE CASCADE, so the profile, the consultations and the
    notifications of the identity go, and with the consultations the
    notifications that reference them. *)
Definition delete_auth_user (id : uuid) (d : db) : result :=
  match auth_users d !! id with
  | None => Ok d 0
  | Some _ =>
      let kept := filter (λ kr, c_user_id kr.2 ≠ id) (consultations d) in
      Ok {| auth_users := delete id (auth_users d);
            profiles := delete id (profiles d);
            consultations := kept;
            notifications :=
              filter (λ kr, bool_decide (n_user_id kr.2 ≠ id)
                            && match n_consultation_id kr.2 with
                               | None => true
                               | Some c => bool_decide (is_Some (kept !! c))
                               end) (notifications d) |} 1
  end.

(** The last statement of migration 20250916144219:
    [UPDATE profiles SET role = 'admin' WHERE user_id IN
     (SELECT id FROM auth.users WHERE email = '...')]; the BEFORE UPDATE
    trigger of [profiles] refreshes [updated_at] of the rows it touches. *)
Definition grant_designated_admin (now : timestamptz) (d : db) : db :=
  with_profiles
    (map_imap (λ user_id p,
       if bool_decide (auth_users d !! user_id ≫= email
                       = Some "omatulemarvellous721@gmail.com")
       then Some (update_updated_at_column_profiles now
                    {| p_full_name := p_full_name p; p_role := "admin";
                       p_created_at := p_created_at p; p_updated_at := p_updated_at p |})
       else Some p) (profiles d)) d.

(** ** Page loads *)

(** [checkAdminAccess] of the admin dashboard:
    [select('role').eq('user_id', user.id).single()]; without exactly one
    row [single()] fails and the catch branch clears the flag. The result
    is the [isAdmin] flag. *)
Definition checkAdminAccess (d : db) (user : uuid) : bool :=
  match select_profiles d (Some user) !! user with
  | Some profile => bool_decide (p_role profile = "admin")
  | None => false
  end.

(** [ORDER BY created_at DESC]: rows with equal timestamps come in an
    order the store does not fix. *)
Definition not_older (a b : uuid * consultation) : Prop :=
  (c_created_at b.2 ≤ c_created_at a.2)%Z.

Global Instance not_older_dec : RelDecision not_older :=
  λ a b, Z_le_dec (c_created_at b.2) (c_created_at a.2).

Definition newest_first (l : list (uuid * consultation)) : Prop :=
  Sorted not_older l.

(** The consultations query of [fetchUserData] of the user dashboard, before
    the ORDER BY: [select('*').eq('user_id', user.id)]. *)
Definition own_consultations (d : db) (user : uuid) : gmap uuid consultation :=
  filter (λ kr, c_user_id kr.2 = user) (select_consultations d (Some user)).

(** [l] is a possible answer to the consultations query of [fetchUserData]. *)
Definition fetchUserData_consultations (d : db) (user : uuid)
    (l : list (uuid * consultation)) : Prop :=
  l ≡ₚ map_to_list (own_consultations d user) ∧ newest_first l.

(** One answer, computed: ties are broken by the sort. *)
Definition fetchUserData_sorted (d : db) (user : uuid) : list (uuid * consultation) :=
  merge_sort not_older (map_to_list (own_consultations d user)).

(** The consultations query of [fetchData] of the payment page:
    [eq('user_id', user.id).eq('payment_status', 'unpaid')]. *)
Definition unpaid_consultations (d : db) (user : uuid) : gmap uuid consultation :=
  filter (λ kr, c_payment_status kr.2 = "unpaid") (own_consultations d user).

(** [r] is a possible value of the page's [consultation] state after
    [fetchData]: the first row of the query ordered newest first,
    [limit(1)]; [None] when the query is empty and the page redirects to the
    booking form. *)
Definition fetchData_consultation (d : db) (user : uuid)
    (r : option (uuid * consultation)) : Prop :=
  ∃ l, l ≡ₚ map_to_list (unpaid_consultations d user) ∧ newest_first l ∧ r = head l.

(** ** Bank accounts *)

(** [public.bank_accounts]; [id] is the key. The table is kept beside the
    store of the other tables. *)
Record bank_account := {
  b_bank_name : string;
  b_account_name : string;
  b_account_number : string;
  b_routing_number : option string;
  b_is_active : bool;
  b_created_at : timestamptz
}.

(** The database role of a session: [authenticated] with a signed-in user,
    [anon] without. *)
Inductive db_role := anon | authenticated.

Definition db_role_eqb (a b : db_role) : bool :=
  match a, b with
  | anon, anon | authenticated, authenticated => true
  | _, _ => false
  end.

Definition session_role (uid : option uuid) : db_role :=
  match uid with Some _ => authenticated | None => anon end.

(** A policy with its TO clause; [None] is the default, PUBLIC. *)
Record granted_policy (row : Type) := mk_granted {
  gp_to : option db_role;
  gp_policy : policy row
}.
Arguments mk_granted {row}.
Arguments gp_to {row}.
Arguments gp_policy {row}.

Definition granted_to {row} (role : db_role) (g : granted_policy row) : bool :=
  match gp_to g with
  | None => true
  | Some r => db_role_eqb r role
  end.

(** The policies that apply to a session. *)
Definition policies_for {row} (uid : option uuid) (l : list (granted_policy row))
  : list (policy row) :=
  map gp_policy (List.filter (granted_to (session_role uid)) l).

Definition bank_accounts_policies : list (granted_policy bank_account) := [
  mk_granted (Some authenticated)
    (mk_policy "Authenticated users can view active bank accounts" SELECT
       (Some (λ _ _ _ r, bool_decide (b_is_active r = true))) None);
  mk_granted None
    (mk_policy "Admins can manage bank accounts" ALL
       (Some (is_admin bank_account)) None)
].

Inductive bank_result :=
  | BankOk (banks : gmap uuid bank_account) (rows : nat)
  | BankErr (e : sql_error).

Definition banks_after (r : bank_result) (banks : gmap uuid bank_account)
  : gmap uuid bank_account :=
  match r with BankOk b _ => b | BankErr _ => banks end.

(** [SELECT * FROM bank_accounts]. *)
Definition select_bank_accounts (d : db) (uid : option uuid)
    (banks : gmap uuid bank_account) : gmap uuid bank_account :=
  filter (λ kr, rls_using (policies_for uid bank_accounts_policies) SELECT d uid kr.1 kr.2)
    banks.

(** The bank query of [fetchData] of the payment page:
    [select('*').eq('is_active', true)]. *)
Definition fetchData_banks (d : db) (uid : option uuid)
    (banks : gmap uuid bank_account) : gmap uuid bank_account :=
  filter (λ kr, b_is_active kr.2 = true) (select_bank_accounts d uid banks).

Record bank_account_insert := {
  bins_bank_name : option string;
  bins_account_name : option string;
  bins_account_number : option string;
  bins_routing_number : option string;
  bins_is_active : option bool;
  bins_created_at : option timestamptz
}.

Definition inserted_bank_account (now : timestamptz) (i : bank_account_insert)
  : option bank_account :=
  bank_name ← bins_bank_name i;
  account_name ← bins_account_name i;
  account_number ← bins_account_number i;
  Some {| b_bank_name := bank_name; b_account_name := account_name;
          b_account_number := account_number;
          b_routing_number := bins_routing_number i;
          b_is_active := default true (bins_is_active i);
          b_created_at := default now (bins_created_at i) |}.

(** [INSERT INTO bank_accounts (...)] in a session. *)
Definition insert_bank_accounts (now : timestamptz) (d : db) (uid : option uuid)
    (i : bank_account_insert) (banks : gmap uuid bank_account) : bank_result :=
  match inserted_bank_account now i with
  | None => BankErr not_null_violation
  | Some NEW =>
      let id := fresh (dom banks) in
      if negb (rls_with_check (policies_for uid bank_accounts_policies) INSERT d uid id NEW)
      then BankErr rls_violation
      else BankOk (<[id := NEW]> banks) 1
  end.

Record bank_account_set := {
  bset_bank_name : option string;
  bset_account_name : option string;
  bset_account_number : option string;
  bset_routing_number : option (option string);
  bset_is_active : option bool;
  bset_created_at : option timestamptz
}.

Definition apply_bset (s : bank_account_set) (r : bank_account) : bank_account :=
  {| b_bank_name := default (b_bank_name r) (bset_bank_name s);
     b_account_name := default (b_account_name r) (bset_account_name s);
     b_account_number := default (b_account_number r) (bset_account_number s);
     b_routing_number := default (b_routing_number r) (bset_routing_number s);
     b_is_active := default (b_is_active r) (bset_is_active s);
     b_created_at := default (b_created_at r) (bset_created_at s) |}.

(** [UPDATE bank_accounts SET ... WHERE id = id]; the table has no trigger
    and no CHECK constraint. *)
Definition update_bank_accounts (d : db) (uid : option uuid) (id : uuid)
    (s : bank_account_set) (banks : gmap uuid bank_account) : bank_result :=
  match banks !! id with
  | None => BankOk banks 0
  | Some OLD =>
      let pols := policies_for uid bank_accounts_policies in
      if negb (update_target pols d uid id OLD) then BankOk banks 0
      else if negb (update_check pols d uid id (apply_bset s OLD)) then BankErr rls_violation
      else BankOk (<[id := apply_bset s OLD]> banks) 1
  end.

(** [DELETE FROM bank_accounts WHERE id = id]; [consultations.bank_account_id]
    is not declared as a reference, so nothing follows or blocks the row. *)
Definition delete_bank_accounts (d : db) (uid : option uuid) (id : uuid)
    (banks : gmap uuid bank_account) : bank_result :=
  match banks !! id with
  | None => BankOk banks 0
  | Some OLD =>
      if negb (delete_target (policies_for uid bank_accounts_policies) d uid id OLD)
      then BankOk banks 0
      else BankOk (delete id banks) 1
  end.

(** [SET is_active = b]. *)
Definition set_is_active (b : bool) : bank_account_set :=
  {| bset_bank_name := None; bset_account_name := None; bset_account_number := None;
     bset_routing_number := None; bset_is_active := Some b; bset_created_at := None |}.

(** The INSERT that seeds [bank_accounts] in the migrations, run at [now]
    on an empty table by the migration role. *)
Definition sample_bank_accounts (now : timestamptz) : gmap uuid bank_account :=
  foldl (λ banks r, <[fresh (dom banks) := r]> banks) ∅
    (map (λ '(bank_name, account_number, routing_number),
            {| b_bank_name := bank_name;
               b_account_name := "HealthConnect Medical Services";
               b_account_number := account_number;
               b_routing_number := Some routing_number;
               b_is_active := true; b_created_at := now |})
       [("Wells Fargo", "1234567890", "121000248");
        ("Chase Bank", "9876543210", "021000021");
        ("Bank of America", "5555666677", "026009593");
        ("Citibank", "1111222233", "021000089")]).

(** ** Consistency of the store and the statements a store can receive *)

(** The CHECK constraints and the foreign keys the migrations declare. *)
Definition db_valid (d : db) : Prop :=
  map_Forall (λ _ c, consultations_check c = true
                     ∧ is_Some (auth_users d !! c_user_id c)) (consultations d)
  ∧ map_Forall (λ _ n, is_Some (auth_users d !! n_user_id n)
                       ∧ ∀ c, n_consultation_id n = Some c →
                              is_Some (consultations d !! c)) (notifications d)
  ∧ map_Forall (λ user_id p, profiles_check p = true
                             ∧ is_Some (auth_users d !! user_id)) (profiles d).

Inductive statement :=
  | SignUp (now : timestamptz) (id : uuid) (u : auth_user)
  | DeleteUser (id : uuid)
  | InsertConsultation (now : timestamptz) (uid : option uuid) (i : consultation_insert)
  | UpdateConsultation (now : timestamptz) (uid : option uuid) (id : uuid)
      (s : consultation_set)
  | DeleteConsultation (uid : option uuid) (id : uuid)
  | InsertNotification (now : timestamptz) (uid : option uuid) (i : notification_insert)
  | UpdateNotification (uid : option uuid) (id : uuid) (s : notification_set)
  | DeleteNotification (uid : option uuid) (id : uuid)
  | UpdateProfile (now : timestamptz) (uid : option uuid) (user_id : uuid) (s : profile_set)
  | DeleteProfile (uid : option uuid) (user_id : uuid).

Definition run `{DT : !datetime_input} (st : statement) (d : db) : result :=
  match st with
  | SignUp now id u => sign_up now id u d
  | DeleteUser id => delete_auth_user id d
  | InsertConsultation now uid i => insert_consultations now uid i d
  | UpdateConsultation now uid id s => update_consultations now uid id s d
  | DeleteConsultation uid id => delete_consultations uid id d
  | InsertNotification now uid i => insert_notifications now uid i d
  | UpdateNotification uid id s => update_notifications uid id s d
  | DeleteNotification uid id => delete_notifications uid id d
  | UpdateProfile now uid user_id s => update_profiles now uid user_id s d
  | DeleteProfile uid user_id => delete_profiles uid user_id d
  end.

(** The store after a sequence of statements, each in its own transaction. *)
Definition run_all `{DT : !datetime_input} (sts : list statement) (d : db) : db :=
  foldl (λ d st, db_after (run st d) d) d sts.

(** Statements sent through the API by a session, as opposed to the
    provisioning and removal of identities. *)
Definition client_statement (st : statement) : Prop :=
  match st with
  | SignUp _ _ _ | DeleteUser _ => False
  | _ => True
  end.

(** The row the notification trigger inserts for [NEW] once its guard holds,
    and the store an accepted update of [id] leaves. *)
Definition notification_of (now : timestamptz) (id : uuid) (NEW : consultation)
  : notification :=
  notification_for now id NEW (default "" (notification_title NEW))
    (default "" (notification_message NEW)).

Definition store_updated (now : timestamptz) (id : uuid) (OLD NEW : consultation) (d : db)
  : db :=
  let d1 := with_consultations (<[id := NEW]> (consultations d)) d in
  if status_change_notifies OLD NEW then
    with_notifications
      (<[fresh (dom (notifications d)) := notification_of now id NEW]> (notifications d)) d1
  else d1.


(** The row [handleSubmit] sends for a user, with the defaults filled in. *)
Definition booked_row (now : timestamptz) (user : uuid) (fd : formData) : consultation :=
  {| c_user_id := user; c_doctor_name := fd_doctor_name fd;
     c_consultation_type := fd_consultation_type fd;
     c_preferred_date := fd_preferred_date fd; c_preferred_time := fd_preferred_time fd;
     c_symptoms := fd_symptoms fd; c_status := "pending"; c_payment_status := "unpaid";
     c_amount := 5000; c_bank_account_id := None; c_admin_notes := None;
     c_created_at := now; c_updated_at := now |}.

(** ** One reading of dates and times *)

(** The forms [yyyy-mm-dd] and [hh:mm] or [hh:mm:ss], which the date and
    time inputs of the booking form produce and which PostgreSQL reads as
    they stand. The concrete runs below use this reading; the properties
    are stated for every pair of input functions. *)
Definition digit_value (a : Ascii.ascii) : option Z :=
  let n := Z.of_nat (Ascii.nat_of_ascii a) in
  if bool_decide (48 ≤ n ≤ 57)%Z then Some (n - 48) else None.

Fixpoint digits_value (acc : Z) (s : string) : option Z :=
  match s with
  | EmptyString => Some acc
  | String a rest => n ← digit_value a; digits_value (10 * acc + n) rest
  end.

(** The number written by the [len] digits of [s] from position [pos]. *)
Definition field (pos len : nat) (s : string) : option Z :=
  let f := String.substring pos len s in
  if bool_decide (String.length f = len) then digits_value 0 f else None.

Definition separator (pos : nat) (c : string) (s : string) : bool :=
  bool_decide (String.substring pos 1 s = c).

Definition leap_year (y : Z) : bool :=
  bool_decide (y mod 4 = 0) && (negb (bool_decide (y mod 100 = 0)) || bool_decide (y mod 400 = 0)).

Definition days_in_month (y m : Z) : Z :=
  if bool_decide (m = 2) then (if leap_year y then 29 else 28)
  else if bool_decide (m ∈ [4; 6; 9; 11]) then 30
  else 31.

Definition iso_date_in (s : string) : bool :=
  match field 0 4 s, field 5 2 s, field 8 2 s with
  | Some y, Some m, Some day =>
      bool_decide (String.length s = 10%nat)
      && separator 4 "-" s && separator 7 "-" s
      && bool_decide (1 ≤ y)%Z && bool_decide (1 ≤ m ≤ 12)%Z
      && bool_decide (1 ≤ day ≤ days_in_month y m)%Z
  | _, _, _ => false
  end.

Definition iso_time_in (s : string) : bool :=
  match field 0 2 s, field 3 2 s with
  | Some h, Some m =>
      separator 2 ":" s && bool_decide (0 ≤ h ≤ 23)%Z && bool_decide (0 ≤ m ≤ 59)%Z
      && (bool_decide (String.length s = 5%nat)
          || (bool_decide (String.length s = 8%nat) && separator 5 ":" s
              && match field 6 2 s with
                 | Some sec => bool_decide (0 ≤ sec ≤ 59)%Z
                 | None => false
                 end))
  | _, _ => false
  end.

Global Instance iso_datetime_input : datetime_input :=
  {| date_in := iso_date_in; time_in := iso_time_in |}.

(** ** A small deployment *)

(** Three identities: two regular users and the one whose e-mail address
    the migrations designate as administrator. *)
Module Scenario.

Definition alice : uuid := 1%positive.
Definition bob : uuid := 2%positive.
Definition root : uuid := 3%positive.

Definition identity (address : string) : auth_user :=
  {| email := Some address; raw_full_name := None |}.

Definition signed_up : db :=
  let d0 := empty_db in
  let d1 := db_after (sign_up 10 alice (identity "alice@example.org") d0) d0 in
  let d2 := db_after (sign_up 11 bob (identity "bob@example.org") d1) d1 in
  db_after (sign_up 12 root (identity "omatulemarvellous721@gmail.com") d2) d2.

Definition phone_booking : formData :=
  {| fd_doctor_name := "Dr. Smith"; fd_consultation_type := "phone_call";
     fd_preferred_date := "2025-10-01"; fd_preferred_time := "10:30";
     fd_symptoms := "cough" |}.

Definition video_booking : formData :=
  {| fd_doctor_name := "Dr. Smith"; fd_consultation_type := "video_call";
     fd_preferred_date := "2025-10-01"; fd_preferred_time := "10:30";
     fd_symptoms := "cough" |}.

(** Alice books a phone call; the consultation gets the key [1]. *)
Definition booked : db :=
  db_after (handleSubmit 100 (Some alice) phone_booking signed_up) signed_up.

Definition booking : uuid := 1%positive.

(** The row that booking stores. *)
Definition stored_booking : consultation :=
  {| c_user_id := alice; c_doctor_name := "Dr. Smith";
     c_consultation_type := "phone_call"; c_preferred_date := "2025-10-01";
     c_preferred_time := "10:30"; c_symptoms := "cough"; c_status := "pending";
     c_payment_status := "unpaid"; c_amount := 5000; c_bank_account_id := None;
     c_admin_notes := None; c_created_at := 100; c_updated_at := 100 |}.

(** The administrator declines it and leaves the notes box empty. *)
Definition declined_without_notes : db :=
  db_after (updateConsultationStatus 200 (Some root) booking declined "" booked) booked.

(** The administrator approves it. *)
Definition approved_booking : db :=
  db_after (updateConsultationStatus 200 (Some root) booking approved "" booked) booked.

(** Alice inserts a consultation directly and supplies [updated_at]. *)
Definition future_dated : consultation_insert :=
  {| ins_user_id := Some alice; ins_doctor_name := Some "Dr. Smith";
     ins_consultation_type := Some "chat"; ins_preferred_date := Some "2025-10-01";
     ins_preferred_time := Some "10:30"; ins_symptoms := Some "cough";
     ins_status := None; ins_payment_status := None; ins_amount := None;
     ins_bank_account_id := None; ins_admin_notes := None;
     ins_created_at := None; ins_updated_at := Some 1000 |}.

Definition booked_ahead : db :=
  db_after (insert_consultations 100 (Some alice) future_dated signed_up) signed_up.

Definition set_status_to (s : string) : consultation_set :=
  {| set_user_id := None; set_doctor_name := None; set_consultation_type := None;
     set_preferred_date := None; set_preferred_time := None; set_symptoms := None;
     set_status := Some s; set_payment_status := None; set_amount := None;
     set_bank_account_id := None; set_admin_notes := None;
     set_created_at := None; set_updated_at := None |}.

Definition set_owner_to (u : uuid) : consultation_set :=
  {| set_user_id := Some u; set_doctor_name := None; set_consultation_type := None;
     set_preferred_date := None; set_preferred_time := None; set_symptoms := None;
     set_status := None; set_payment_status := None; set_amount := None;
     set_bank_account_id := None; set_admin_notes := None;
     set_created_at := None; set_updated_at := None |}.

Definition decline_and_refund : consultation_set :=
  {| set_user_id := None; set_doctor_name := None; set_consultation_type := None;
     set_preferred_date := None; set_preferred_time := None; set_symptoms := None;
     set_status := Some "declined"; set_payment_status := Some "refunded";
     set_amount := None; set_bank_account_id := None; set_admin_notes := None;
     set_created_at := None; set_updated_at := None |}.

(** The administrator declines Alice's booking and marks it refunded. *)
Definition declined_and_refunded : db :=
  db_after (update_consultations 200 (Some root) booking decline_and_refund booked) booked.

End Scenario.

(** * Properties *)

(** ** The access gate of [consultations] *)

(** Decides which policies of a concrete list apply to a command and
    folds the disjunction over the list. *)
Ltac policy_simpl :=
  unfold rls_using, rls_with_check,
    consultations_policies, notifications_policies, profiles_policies;
  cbn [existsb];
  repeat match goal with
         | |- context [applies_to ?c ?p] =>
             let b := eval vm_compute in (applies_to c p) in
             change (applies_to c p) with b
         end;
  cbn [andb orb pol_using pol_with_check].

Lemma consultations_select_using d uid k r :
  rls_using consultations_policies SELECT d uid k r = may_access d uid r.
Proof.
  policy_simpl. unfold may_access, is_admin.
  by destruct (uid_eq _ _), (bool_decide _).
Qed.

Lemma consultations_update_using d uid k r :
  rls_using consultations_policies UPDATE d uid k r = may_access d uid r.
Proof.
  policy_simpl. unfold may_access, is_admin.
  by destruct (uid_eq _ _), (bool_decide _).
Qed.

Lemma consultations_update_with_check d uid k r :
  rls_with_check consultations_policies UPDATE d uid k r = may_access d uid r.
Proof.
  policy_simpl. unfold may_access, is_admin.
  by destruct (uid_eq _ _), (bool_decide _).
Qed.

Lemma consultations_insert_with_check d uid k r :
  rls_with_check consultations_policies INSERT d uid k r = uid_eq uid (c_user_id r).
Proof.
  policy_simpl. by destruct (uid_eq _ _).
Qed.

Lemma consultations_update_target d uid k r :
  update_target consultations_policies d uid k r = may_access d uid r.
Proof.
  unfold update_target.
  rewrite consultations_update_using, consultations_select_using.
  by destruct (may_access _ _ _).
Qed.

Lemma consultations_update_check d uid k r :
  update_check consultations_policies d uid k r = may_access d uid r.
Proof.
  unfold update_check.
  rewrite consultations_update_with_check, consultations_select_using.
  by destruct (may_access _ _ _).
Qed.

Lemma may_access_spec d uid r :
  may_access d uid r = true ↔
  uid = Some (c_user_id r) ∨ get_current_user_role d uid = "admin".
Proof.
  unfold may_access, uid_eq.
  rewrite orb_true_iff, !bool_decide_eq_true. tauto.
Qed.

(** ** The notification trigger *)

Lemma fresh_notification_key (d : db) :
  notifications d !! fresh (dom (notifications d)) = None.
Proof. apply not_elem_of_dom, is_fresh. Qed.

Lemma status_change_notifies_spec OLD NEW :
  status_change_notifies OLD NEW = true ↔
  c_status NEW ≠ c_status OLD ∧ (c_status NEW = "approved" ∨ c_status NEW = "declined").
Proof.
  unfold status_change_notifies.
  rewrite andb_true_iff, !bool_decide_eq_true, !elem_of_cons, elem_of_nil.
  tauto.
Qed.

Lemma notify_silent now id OLD NEW d :
  status_change_notifies OLD NEW = false →
  notify_consultation_status_change now id OLD NEW d = Ok d 0.
Proof. intros H. unfold notify_consultation_status_change. by rewrite H. Qed.

Lemma notify_fires now id OLD NEW d d' k :
  status_change_notifies OLD NEW = true →
  notify_consultation_status_change now id OLD NEW d = Ok d' k →
  ∃ t m, notification_title NEW = Some t ∧ notification_message NEW = Some m ∧
         d' = with_notifications
                (<[fresh (dom (notifications d)) := notification_for now id NEW t m]>
                   (notifications d)) d.
Proof.
  intros Hf. unfold notify_consultation_status_change, insert_notification.
  rewrite Hf.
  destruct (notification_title NEW) as [t|]; [|done].
  destruct (notification_message NEW) as [m|]; [|done].
  case_match; [done|].
  intros [= <- <-]. by exists t, m.
Qed.

Lemma notify_frame now id OLD NEW d d' k :
  notify_consultation_status_change now id OLD NEW d = Ok d' k →
  consultations d' = consultations d ∧ profiles d' = profiles d
  ∧ auth_users d' = auth_users d.
Proof.
  destruct (status_change_notifies OLD NEW) eqn:Hf.
  - intros H. by destruct (notify_fires _ _ _ _ _ _ _ Hf H) as (t & m & _ & _ & ->).
  - rewrite notify_silent by done. by intros [= <- <-].
Qed.

Lemma references_auth_users_spec d u :
  references_auth_users d u = true ↔ is_Some (auth_users d !! u).
Proof. unfold references_auth_users. apply bool_decide_eq_true. Qed.

Lemma notification_texts_defined OLD NEW :
  status_change_notifies OLD NEW = true →
  ∃ t m, notification_title NEW = Some t ∧ notification_message NEW = Some m.
Proof.
  intros H. apply status_change_notifies_spec in H as [_ [H|H]];
    unfold notification_title, notification_message; rewrite H; cbn.
  - eauto.
  - destruct (c_admin_notes NEW); cbn; eauto.
Qed.

(** ** Shape of an UPDATE on [consultations] *)

Lemma update_consultations_missing `{DT : !datetime_input} now uid id s d :
  consultations d !! id = None → update_consultations now uid id s d = Ok d 0.
Proof. intros H. unfold update_consultations. by rewrite H. Qed.

Lemma update_consultations_denied `{DT : !datetime_input} now uid id s d OLD :
  consultations d !! id = Some OLD →
  may_access d uid OLD = false →
  update_consultations now uid id s d = Ok d 0.
Proof.
  intros H Hd. unfold update_consultations.
  by rewrite H, consultations_update_target, Hd.
Qed.

Lemma update_consultations_accepted `{DT : !datetime_input} now uid id s d d' OLD :
  consultations d !! id = Some OLD →
  update_consultations now uid id s d = Ok d' 1 →
  may_access d uid OLD = true
  ∧ may_access d uid (updated_row now s OLD) = true
  ∧ consultations_check (updated_row now s OLD) = true
  ∧ ∃ k, notify_consultation_status_change now id OLD (updated_row now s OLD)
           (with_consultations (<[id := updated_row now s OLD]> (consultations d)) d)
         = Ok d' k.
Proof.
  intros H. unfold update_consultations.
  rewrite H, consultations_update_target, consultations_update_check.
  destruct (may_access d uid OLD); [|done].
  destruct (set_literals_ok s); [|done].
  destruct (may_access d uid (updated_row now s OLD)); [|done].
  destruct (consultations_check (updated_row now s OLD)); [|done].
  cbn [negb]. case_match; [done|].
  destruct (notify_consultation_status_change _ _ _ _ _) as [d'' k|] eqn:Hn; [|done].
  intros [= <-]. eauto.
Qed.

(** A statement affects one row or none; with none the store is unchanged. *)
Lemma update_consultations_rows `{DT : !datetime_input} now uid id s d :
  let r := update_consultations now uid id s d in
  (rows_affected r = 0%nat ∧ db_after r d = d) ∨ (∃ d', r = Ok d' 1).
Proof.
  cbv zeta. unfold update_consultations.
  repeat (case_match; try by (left; done)).
  right. eauto.
Qed.

(** C1. For an accepted update of a consultation the stored row is the one
    the statement built, and a notification is inserted exactly when the
    status changed to approved or declined: in that case the notifications
    table grows by exactly one row, which belongs to the owner of the updated
    consultation and refers to it; in every other case, in particular when the
    written status equals the stored one, the notifications table is
    unchanged. *)
Theorem notification_iff_status_change `{DT : !datetime_input} now uid id s d d' OLD
    (Hold : consultations d !! id = Some OLD)
    (Haccepted : update_consultations now uid id s d = Ok d' 1) :
  let NEW := updated_row now s OLD in
  consultations d' !! id = Some NEW
  ∧ (c_status NEW ≠ c_status OLD ∧ (c_status NEW = "approved" ∨ c_status NEW = "declined") →
     ∃ nid n, notifications d !! nid = None
              ∧ notifications d' = <[nid := n]> (notifications d)
              ∧ size (notifications d') = S (size (notifications d))
              ∧ n_user_id n = c_user_id NEW
              ∧ n_consultation_id n = Some id)
  ∧ (¬ (c_status NEW ≠ c_status OLD ∧ (c_status NEW = "approved" ∨ c_status NEW = "declined")) →
     notifications d' = notifications d)
  ∧ (c_status NEW = c_status OLD → notifications d' = notifications d).
Proof.
  intros NEW.
  destruct (update_consultations_accepted _ _ _ _ _ _ _ Hold Haccepted)
    as (_ & _ & _ & k & Hn). fold NEW in Hn.
  assert (Hsilent : ¬ (c_status NEW ≠ c_status OLD
                        ∧ (c_status NEW = "approved" ∨ c_status NEW = "declined")) →
                    notifications d' = notifications d).
  { intros Hno. rewrite <- status_change_notifies_spec in Hno.
    apply not_true_is_false in Hno.
    rewrite notify_silent in Hn by done. by injection Hn as <- _. }
  split; [|split; [|split]].
  - destruct (notify_frame _ _ _ _ _ _ _ Hn) as (-> & _).
    cbn. apply lookup_insert_eq.
  - intros Hyes. rewrite <- status_change_notifies_spec in Hyes.
    destruct (notify_fires _ _ _ _ _ _ _ Hyes Hn) as (t & m & _ & _ & ->).
    cbn [notifications with_notifications with_consultations].
    eexists _, _. split; [apply fresh_notification_key|].
    split; [reflexivity|].
    split; [apply map_size_insert_None, fresh_notification_key|done].
  - exact Hsilent.
  - intros Heq. apply Hsilent. tauto.
Qed.

Lemma notification_iff_status_change_witness :
  let d := Scenario.booked in
  let r := update_consultations 200 (Some Scenario.root) Scenario.booking
             (Scenario.set_status_to "approved") d in
  consultations d !! Scenario.booking = Some Scenario.stored_booking
  ∧ r = Ok (db_after r d) 1
  ∧ size (notifications (db_after r d)) = S (size (notifications d)).
Proof.
  cbv zeta.
  assert (H1 : consultations Scenario.booked !! Scenario.booking
               = Some Scenario.stored_booking) by (vm_compute; reflexivity).
  set (r := update_consultations 200 (Some Scenario.root) Scenario.booking
              (Scenario.set_status_to "approved") Scenario.booked).
  assert (H2 : r = Ok (db_after r Scenario.booked) 1) by (vm_compute; reflexivity).
  split; [exact H1|]. split; [exact H2|].
  destruct (notification_iff_status_change _ _ _ _ _ _ _ H1 H2) as (_ & Hyes & _).
  destruct Hyes as (nid & n & _ & _ & Hsize & _); [|exact Hsize].
  split; [vm_compute; discriminate|left; vm_compute; reflexivity].
Defined.

(** C2, as the code has it. When the trigger fires, the inserted row is
    fixed by the new status and the notes: approved gives the title
    "Consultation Approved ✅" and the confirmation text; declined gives the
    title "Consultation Declined ❌" and the rejection text followed by
    "Reason: " and the notes when there are non-empty notes, and by the
    contact-support sentence when admin_notes is NULL. *)
Theorem notification_content now id OLD NEW d d' k
    (Hfires : status_change_notifies OLD NEW = true)
    (Hrun : notify_consultation_status_change now id OLD NEW d = Ok d' k) :
  ∃ n, notifications d' = <[fresh (dom (notifications d)) := n]> (notifications d)
       ∧ n_user_id n = c_user_id NEW
       ∧ (c_status NEW = "approved" →
          n_title n = "Consultation Approved ✅"
          ∧ n_message n = "Your consultation request has been approved! You will receive further details soon.")
       ∧ (c_status NEW = "declined" →
          n_title n = "Consultation Declined ❌"
          ∧ (∀ notes, c_admin_notes NEW = Some notes → notes ≠ "" →
               n_message n = "Your consultation request has been declined. Reason: " +:+ notes)
          ∧ (c_admin_notes NEW = None →
               n_message n = "Your consultation request has been declined. Please contact support for more information.")).
Proof.
  destruct (notify_fires _ _ _ _ _ _ _ Hfires Hrun) as (t & m & Ht & Hm & ->).
  eexists. split; [reflexivity|]. split; [reflexivity|].
  unfold notification_title, notification_message in Ht, Hm.
  split.
  - intros Hs. rewrite Hs in Ht, Hm. cbn in Ht, Hm.
    injection Ht as <-. injection Hm as <-. done.
  - intros Hs. rewrite Hs in Ht, Hm. cbn in Ht, Hm.
    injection Ht as <-. split; [done|]. split.
    + intros notes Hnotes _. rewrite Hnotes in Hm. cbn in Hm. by injection Hm as <-.
    + intros Hnotes. rewrite Hnotes in Hm. cbn in Hm. by injection Hm as <-.
Qed.

Lemma notification_content_witness :
  let OLD := Scenario.stored_booking in
  let NEW := updated_row 200 (Scenario.set_status_to "approved") OLD in
  let d := Scenario.booked in
  let r := notify_consultation_status_change 200 Scenario.booking OLD NEW d in
  status_change_notifies OLD NEW = true
  ∧ r = Ok (db_after r d) 1
  ∧ ∃ n, notifications (db_after r d) !! 1%positive = Some n
         ∧ n_title n = "Consultation Approved ✅".
Proof.
  cbv zeta.
  set (OLD := Scenario.stored_booking).
  set (NEW := updated_row 200 (Scenario.set_status_to "approved") OLD).
  set (r := notify_consultation_status_change 200 Scenario.booking OLD NEW Scenario.booked).
  assert (H1 : status_change_notifies OLD NEW = true) by (vm_compute; reflexivity).
  assert (H2 : r = Ok (db_after r Scenario.booked) 1) by (vm_compute; reflexivity).
  split; [exact H1|]. split; [exact H2|].
  destruct (notification_content _ _ _ _ _ _ _ H1 H2) as (n & Hn & _ & Happ & _).
  exists n. split.
  - rewrite Hn.
    replace (fresh (dom (notifications Scenario.booked))) with 1%positive
      by (vm_compute; reflexivity).
    apply lookup_insert_eq.
  - apply Happ. vm_compute; reflexivity.
Defined.

(** C2, against the specification's wording: the title of an approval is not
    the bare text "Consultation Approved", and a decline sent by the admin
    dashboard with an empty notes box stores the empty string, so the
    message ends in "Reason: " and not in the contact-support sentence. *)
Lemma notification_content_counterexample :
  n_title <$> notifications Scenario.approved_booking !! 1%positive
    ≠ Some "Consultation Approved"
  ∧ (c_admin_notes <$> consultations Scenario.declined_without_notes !! Scenario.booking)
    = Some (Some "")
  ∧ (n_message <$> notifications Scenario.declined_without_notes !! 1%positive)
    = Some "Your consultation request has been declined. Reason: "
  ∧ (n_message <$> notifications Scenario.declined_without_notes !! 1%positive)
    ≠ Some "Your consultation request has been declined. Please contact support for more information.".
Proof.
  split; [vm_compute; discriminate|].
  split; [vm_compute; reflexivity|].
  split; [vm_compute; reflexivity|vm_compute; discriminate].
Qed.

(** ** Who may update a consultation *)

(** C3, as the code has it. Approving or declining is open to the
    administrators and to the owner of the consultation and to nobody else.
    An actor who is neither an administrator nor the owner cannot update a
    stored consultation: whatever the statement sets, and so also when it
    sets the status of a pending consultation to approved or declined, it
    affects zero rows and leaves the store as it was. The owner's own
    update that sets the status to approved or to declined is accepted,
    whatever the owner's role and the current status, for every stored
    consultation that satisfies the CHECK constraints and whose owner is a
    known identity: the status is written and the owner stays. *)
Theorem approve_decline_gate `{DT : !datetime_input} now uid id s d c
    (Hc : consultations d !! id = Some c) :
  (get_current_user_role d uid ≠ "admin" → uid ≠ Some (c_user_id c) →
   update_consultations now uid id s d = Ok d 0
   ∧ consultations (db_after (update_consultations now uid id s d) d) !! id = Some c)
  ∧ (uid = Some (c_user_id c) →
     consultations_check c = true →
     is_Some (auth_users d !! c_user_id c) →
     ∀ st, st = "approved" ∨ st = "declined" →
       ∃ d' NEW,
         update_consultations now uid id (status_set st) d = Ok d' 1
         ∧ consultations d' !! id = Some NEW
         ∧ c_status NEW = st
         ∧ c_user_id NEW = c_user_id c
         ∧ (c_status c ≠ st →
            size (notifications d') = S (size (notifications d)))).
Proof.
  split.
  - intros Hrole Hstranger.
    assert (Hd : may_access d uid c = false).
    { apply not_true_iff_false. rewrite may_access_spec. tauto. }
    rewrite (update_consultations_denied _ _ _ _ _ _ Hc Hd). done.
  - intros -> Hvalid Howner st Hst.
    set (NEW := updated_row now (status_set st) c).
    assert (Ha : ∀ r, c_user_id r = c_user_id c →
                      may_access d (Some (c_user_id c)) r = true).
    { intros r Hr. apply may_access_spec. left. by rewrite Hr. }
    assert (Hcheck : consultations_check NEW = true).
    { unfold consultations_check in *. cbn.
      repeat rewrite andb_true_iff in *. destruct Hvalid as [[[? _] ?] ?].
      repeat split; try done.
      apply bool_decide_eq_true. destruct Hst as [-> | ->]; set_solver. }
    assert (Hrun : update_consultations now (Some (c_user_id c)) id (status_set st) d
                   = match notify_consultation_status_change now id c NEW
                             (with_consultations (<[id := NEW]> (consultations d)) d) with
                     | Ok d' _ => Ok d' 1
                     | Err e => Err e
                     end).
    { unfold update_consultations.
      rewrite Hc, consultations_update_target, consultations_update_check.
      fold NEW. rewrite Hcheck, !Ha by done.
      change (set_literals_ok (status_set st)) with true. cbn [negb].
      by rewrite (bool_decide_eq_true_2 (c_user_id NEW = c_user_id c)). }
    rewrite Hrun.
    destruct (status_change_notifies c NEW) eqn:Hfires.
    + destruct (notification_texts_defined _ _ Hfires) as (t & m & Ht & Hm).
      unfold notify_consultation_status_change, insert_notification.
      rewrite Hfires, Ht, Hm.
      apply references_auth_users_spec in Howner.
      change (references_auth_users (with_consultations _ d) (c_user_id NEW))
        with (references_auth_users d (c_user_id c)).
      rewrite Howner.
      assert (Hrc : references_consultations
                      (with_consultations (<[id:=NEW]> (consultations d)) d) (Some id)
                    = true).
      { cbn. apply bool_decide_eq_true. rewrite lookup_insert_eq. eauto. }
      rewrite Hrc. cbn [negb andb].
      eexists _, NEW. split; [reflexivity|].
      split; [cbn; apply lookup_insert_eq|]. do 2 (split; [done|]).
      intros _. cbn. apply map_size_insert_None, fresh_notification_key.
    + rewrite notify_silent by done.
      eexists _, NEW. split; [reflexivity|].
      split; [cbn; apply lookup_insert_eq|]. do 2 (split; [done|]).
      intros Hne. exfalso.
      apply not_true_iff_false in Hfires. apply Hfires.
      apply status_change_notifies_spec. split; [by cbn|]. by cbn.
Qed.

Lemma approve_decline_gate_witness :
  let d := Scenario.booked in
  consultations d !! Scenario.booking = Some Scenario.stored_booking
  ∧ c_status Scenario.stored_booking = "pending"
  ∧ get_current_user_role d (Some Scenario.bob) ≠ "admin"
  ∧ Some Scenario.bob ≠ Some (c_user_id Scenario.stored_booking)
  ∧ update_consultations 200 (Some Scenario.bob) Scenario.booking (status_set "approved") d
    = Ok d 0
  ∧ get_current_user_role d (Some Scenario.alice) = "user"
  ∧ ∃ d', update_consultations 200 (Some Scenario.alice) Scenario.booking
            (status_set "declined") d = Ok d' 1
          ∧ size (notifications d') = 1%nat.
Proof.
  cbv zeta.
  assert (H1 : consultations Scenario.booked !! Scenario.booking
               = Some Scenario.stored_booking) by (vm_compute; reflexivity).
  assert (H2 : get_current_user_role Scenario.booked (Some Scenario.bob) ≠ "admin")
    by (vm_compute; discriminate).
  assert (H3 : Some Scenario.bob ≠ Some (c_user_id Scenario.stored_booking))
    by (vm_compute; discriminate).
  split; [exact H1|]. split; [reflexivity|]. split; [exact H2|]. split; [exact H3|].
  split.
  - exact (proj1 (proj1 (approve_decline_gate 200 (Some Scenario.bob) _
                           (status_set "approved") _ _ H1) H2 H3)).
  - split; [vm_compute; reflexivity|].
    destruct (proj2 (approve_decline_gate 200 (Some Scenario.alice) _
                       (status_set "declined") _ _ H1) eq_refl)
      with (st := "declined") as (d' & NEW & Hrun & _ & _ & _ & Hsize).
    + vm_compute. reflexivity.
    + vm_compute. eauto.
    + by right.
    + exists d'. split; [exact Hrun|].
      rewrite Hsize; [vm_compute; reflexivity|vm_compute; discriminate].
Defined.

(** C3, against the specification's wording, which excludes the owner:
    Alice, whose role is user, sets the status of a pending consultation
    Alice owns to approved; the update is accepted, the stored status
    becomes approved and the notification is inserted. *)
Lemma owner_approves_own_consultation :
  let d := Scenario.booked in
  let r := update_consultations 200 (Some Scenario.alice) Scenario.booking
             (Scenario.set_status_to "approved") d in
  get_current_user_role d (Some Scenario.alice) = "user"
  ∧ (c_user_id <$> consultations d !! Scenario.booking) = Some Scenario.alice
  ∧ (c_status <$> consultations d !! Scenario.booking) = Some "pending"
  ∧ rows_affected r = 1%nat
  ∧ (c_status <$> consultations (db_after r d) !! Scenario.booking) = Some "approved"
  ∧ size (notifications (db_after r d)) = 1%nat.
Proof. vm_compute. repeat split. Qed.

(** ** Reading consultations *)

Lemma select_consultations_Some d uid id c :
  select_consultations d uid !! id = Some c
  ↔ consultations d !! id = Some c ∧ may_access d uid c = true.
Proof.
  unfold select_consultations. rewrite map_lookup_filter_Some. cbn [fst snd].
  by rewrite consultations_select_using, Is_true_true.
Qed.

(** C4. A session reading a stored consultation gets the row exactly when
    its actor is the owner or has the admin role; otherwise the query
    returns no row for it, and the query itself never fails. *)
Theorem read_consultation_iff d uid id c
    (Hc : consultations d !! id = Some c) :
  (select_consultations d uid !! id = Some c
   ↔ uid = Some (c_user_id c) ∨ get_current_user_role d uid = "admin")
  ∧ (select_consultations d uid !! id = None
     ↔ ¬ (uid = Some (c_user_id c) ∨ get_current_user_role d uid = "admin")).
Proof.
  rewrite <- may_access_spec.
  assert (Hiff : select_consultations d uid !! id = Some c ↔ may_access d uid c = true).
  { rewrite select_consultations_Some. tauto. }
  split; [exact Hiff|].
  rewrite <- Hiff. split.
  - intros HN HS. congruence.
  - intros HN. destruct (select_consultations d uid !! id) as [c'|] eqn:E; [|done].
    apply select_consultations_Some in E as E'. destruct E' as [E' _].
    exfalso. apply HN. congruence.
Qed.

Lemma read_consultation_iff_witness :
  let d := Scenario.booked in
  consultations d !! Scenario.booking = Some Scenario.stored_booking
  ∧ select_consultations d (Some Scenario.alice) !! Scenario.booking
    = Some Scenario.stored_booking
  ∧ select_consultations d (Some Scenario.root) !! Scenario.booking
    = Some Scenario.stored_booking
  ∧ select_consultations d (Some Scenario.bob) !! Scenario.booking = None.
Proof.
  cbv zeta.
  assert (H1 : consultations Scenario.booked !! Scenario.booking
               = Some Scenario.stored_booking) by (vm_compute; reflexivity).
  split; [exact H1|]. split; [|split].
  - apply (read_consultation_iff _ (Some Scenario.alice) _ _ H1).
    left. reflexivity.
  - apply (read_consultation_iff _ (Some Scenario.root) _ _ H1).
    right. vm_compute. reflexivity.
  - apply (read_consultation_iff _ (Some Scenario.bob) _ _ H1).
    intros [H|H]; vm_compute in H; discriminate.
Defined.

(** ** The amount of a new consultation *)

Lemma inserted_row_user_id now i NEW :
  inserted_row now i = Some NEW → ins_user_id i = Some (c_user_id NEW).
Proof.
  unfold inserted_row.
  destruct (ins_user_id i); [|done].
  destruct (ins_doctor_name i); [|done].
  destruct (ins_consultation_type i); [|done].
  destruct (ins_preferred_date i); [|done].
  destruct (ins_preferred_time i); [|done].
  destruct (ins_symptoms i); [|done].
  cbn. by intros [= <-].
Qed.

Lemma insert_consultations_accepted `{DT : !datetime_input} now uid i d d' n :
  insert_consultations now uid i d = Ok d' n →
  ∃ NEW, inserted_row now i = Some NEW
         ∧ uid = Some (c_user_id NEW)
         ∧ consultations_check NEW = true
         ∧ n = 1%nat
         ∧ d' = with_consultations
                  (<[fresh (dom (consultations d)) := NEW]> (consultations d)) d.
Proof.
  unfold insert_consultations.
  destruct (insert_literals_ok i); [|done]. cbn [negb].
  destruct (ins_user_id i) as [u|] eqn:Hu0; [|done].
  rewrite consultations_insert_with_check. cbn [row_for_policies c_user_id].
  destruct (uid_eq uid u) eqn:Hu; [|done]. cbn [negb].
  destruct (inserted_row now i) as [NEW|] eqn:Hrow; [|done].
  destruct (consultations_check NEW) eqn:Hck; [|done].
  cbn [negb]. case_match; [done|].
  intros [= <- <-]. exists NEW.
  apply inserted_row_user_id in Hrow. rewrite Hu0 in Hrow. injection Hrow as ->.
  unfold uid_eq in Hu. apply bool_decide_eq_true in Hu. done.
Qed.

(** Whatever kind the form selects, an accepted booking stores [50.00]. *)
Lemma handleSubmit_stores_default_amount `{DT : !datetime_input} now user fd d d' n :
  handleSubmit now user fd d = Ok d' (S n) →
  ∃ NEW, consultations d' !! fresh (dom (consultations d)) = Some NEW
         ∧ c_consultation_type NEW = fd_consultation_type fd
         ∧ c_amount NEW = 5000.
Proof.
  unfold handleSubmit. destruct user as [u|]; [|done].
  intros H. apply insert_consultations_accepted in H as (NEW & Hrow & _ & _ & _ & ->).
  cbn in Hrow. injection Hrow as <-.
  eexists. split; [apply lookup_insert_eq|done].
Qed.

(** C5, on the code. A video call booked through the form is stored with
    the amount 50.00, but so is a phone call, for which the booking form
    announces 40 and the payment page computes 40. *)
Theorem booked_amount_ignores_kind :
  let video := db_after (handleSubmit 100 (Some Scenario.alice) Scenario.video_booking
                           Scenario.signed_up) Scenario.signed_up in
  (c_consultation_type <$> consultations video !! Scenario.booking) = Some "video_call"
  ∧ (c_amount <$> consultations video !! Scenario.booking) = Some 5000
  ∧ (c_consultation_type <$> consultations Scenario.booked !! Scenario.booking)
    = Some "phone_call"
  ∧ (c_amount <$> consultations Scenario.booked !! Scenario.booking) = Some 5000
  ∧ getConsultationTypeAmount "phone_call" = 40.
Proof. vm_compute. repeat split. Qed.

(** ** The refreshed timestamp *)

Lemma update_consultations_stored `{DT : !datetime_input} now uid id s d d' OLD :
  consultations d !! id = Some OLD →
  update_consultations now uid id s d = Ok d' 1 →
  consultations d' !! id = Some (updated_row now s OLD).
Proof.
  intros Hold Hacc.
  destruct (update_consultations_accepted _ _ _ _ _ _ _ Hold Hacc) as (_ & _ & _ & k & Hn).
  destruct (notify_frame _ _ _ _ _ _ _ Hn) as (-> & _).
  apply lookup_insert_eq.
Qed.

(** C6, as the code has it. An accepted update stores the transaction's [now()]
    in [updated_at], whatever the statement assigns to that column, so the
    timestamp grows strictly whenever [now()] is later than the stored
    value; an update that affects no row leaves the row, and its
    timestamp, as they were. *)
Theorem updated_at_is_now `{DT : !datetime_input} now uid id s d OLD
    (Hold : consultations d !! id = Some OLD) :
  let r := update_consultations now uid id s d in
  (∀ d', r = Ok d' 1 →
     ∃ NEW, consultations d' !! id = Some NEW
            ∧ c_updated_at NEW = now
            ∧ (c_updated_at OLD < now → c_updated_at OLD < c_updated_at NEW))
  ∧ (rows_affected r = 0%nat → consultations (db_after r d) !! id = Some OLD).
Proof.
  cbv zeta. split.
  - intros d' Hacc. exists (updated_row now s OLD).
    split; [by eapply update_consultations_stored|]. done.
  - intros Hz.
    destruct (update_consultations_rows now uid id s d) as [[_ ->]|[d' Hr]]; [done|].
    rewrite Hr in Hz. discriminate.
Qed.

Lemma updated_at_is_now_witness :
  let d := Scenario.booked in
  let r := confirmPayment 200 (Some Scenario.alice) (Some Scenario.booking) (Some 7%positive) d in
  consultations d !! Scenario.booking = Some Scenario.stored_booking
  ∧ r = Ok (db_after r d) 1
  ∧ (c_updated_at <$> consultations (db_after r d) !! Scenario.booking) = Some 200.
Proof.
  cbv zeta.
  assert (H1 : consultations Scenario.booked !! Scenario.booking
               = Some Scenario.stored_booking) by (vm_compute; reflexivity).
  set (r := confirmPayment 200 (Some Scenario.alice) (Some Scenario.booking)
              (Some 7%positive) Scenario.booked).
  assert (H2 : r = Ok (db_after r Scenario.booked) 1) by (vm_compute; reflexivity).
  split; [exact H1|]. split; [exact H2|].
  destruct (updated_at_is_now 200 (Some Scenario.alice) Scenario.booking
              (payment_set 7%positive) _ _ H1) as [Hacc _].
  destruct (Hacc _ H2) as (NEW & -> & Hnow & _).
  cbn [fmap option_fmap option_map]. by rewrite Hnow.
Defined.

(** C6, against the specification's wording: Alice inserts a consultation
    and supplies an [updated_at] of 1000 with it; a later accepted update
    by Alice, in a transaction whose [now()] is 200, moves the timestamp
    back to 200. *)
Lemma updated_at_can_decrease :
  let d := Scenario.booked_ahead in
  let r := confirmPayment 200 (Some Scenario.alice) (Some Scenario.booking) (Some 7%positive) d in
  (c_created_at <$> consultations d !! Scenario.booking) = Some 100
  ∧ (c_updated_at <$> consultations d !! Scenario.booking) = Some 1000
  ∧ rows_affected r = 1%nat
  ∧ (c_updated_at <$> consultations (db_after r d) !! Scenario.booking) = Some 200
  ∧ ¬ (1000 < 200).
Proof. vm_compute. repeat split. discriminate. Qed.

(** ** The owner column *)

(** C7, as the code has it. Whatever a session without the admin role sends as an
    update, the consultation keeps the owner it had: the statement either
    affects no row, or fails the check of the new row, or leaves [user_id]
    as it was. *)
Theorem owner_fixed_for_non_admin `{DT : !datetime_input} now uid id s d OLD
    (Hold : consultations d !! id = Some OLD)
    (Hrole : get_current_user_role d uid ≠ "admin") :
  let r := update_consultations now uid id s d in
  ∃ NEW, consultations (db_after r d) !! id = Some NEW
         ∧ c_user_id NEW = c_user_id OLD.
Proof.
  cbv zeta.
  destruct (update_consultations_rows now uid id s d) as [[_ ->]|[d' Hr]]; [by eauto|].
  rewrite Hr. cbn [db_after].
  exists (updated_row now s OLD).
  split; [by eapply update_consultations_stored|].
  destruct (update_consultations_accepted _ _ _ _ _ _ _ Hold Hr) as (Ho & Hn & _).
  apply may_access_spec in Ho as [Ho|]; [|done].
  apply may_access_spec in Hn as [Hn|]; [|done].
  congruence.
Qed.

Lemma owner_fixed_for_non_admin_witness :
  let d := Scenario.booked in
  let r := update_consultations 200 (Some Scenario.alice) Scenario.booking
             (Scenario.set_owner_to Scenario.bob) d in
  consultations d !! Scenario.booking = Some Scenario.stored_booking
  ∧ get_current_user_role d (Some Scenario.alice) ≠ "admin"
  ∧ ∃ NEW, consultations (db_after r d) !! Scenario.booking = Some NEW
           ∧ c_user_id NEW = Scenario.alice.
Proof.
  cbv zeta.
  assert (H1 : consultations Scenario.booked !! Scenario.booking
               = Some Scenario.stored_booking) by (vm_compute; reflexivity).
  assert (H2 : get_current_user_role Scenario.booked (Some Scenario.alice) ≠ "admin")
    by (vm_compute; discriminate).
  split; [exact H1|]. split; [exact H2|].
  exact (owner_fixed_for_non_admin 200 _ _ (Scenario.set_owner_to Scenario.bob) _ _ H1 H2).
Defined.

(** C7, against the specification's wording: the administrator's
    update that assigns Alice's consultation to Bob is accepted. *)
Lemma admin_reassigns_owner :
  let d := Scenario.booked in
  let r := update_consultations 200 (Some Scenario.root) Scenario.booking
             (Scenario.set_owner_to Scenario.bob) d in
  get_current_user_role d (Some Scenario.root) = "admin"
  ∧ (c_user_id <$> consultations d !! Scenario.booking) = Some Scenario.alice
  ∧ rows_affected r = 1%nat
  ∧ (c_user_id <$> consultations (db_after r d) !! Scenario.booking) = Some Scenario.bob
  ∧ Scenario.bob ≠ Scenario.alice.
Proof. vm_compute. repeat split. discriminate. Qed.

(** ** The access gate of [notifications] *)

Lemma notifications_select_using d uid k r :
  rls_using notifications_policies SELECT d uid k r = uid_eq uid (n_user_id r).
Proof. policy_simpl. by destruct (uid_eq _ _). Qed.

Lemma notifications_update_target d uid k r :
  update_target notifications_policies d uid k r = uid_eq uid (n_user_id r).
Proof. unfold update_target. policy_simpl. by destruct (uid_eq _ _). Qed.

Lemma notifications_update_check d uid k r :
  update_check notifications_policies d uid k r = uid_eq uid (n_user_id r).
Proof. unfold update_check. policy_simpl. by destruct (uid_eq _ _). Qed.

Lemma select_notifications_Some d uid id n :
  select_notifications d uid !! id = Some n
  ↔ notifications d !! id = Some n ∧ uid = Some (n_user_id n).
Proof.
  unfold select_notifications. rewrite map_lookup_filter_Some. cbn [fst snd].
  rewrite notifications_select_using, Is_true_true.
  unfold uid_eq. by rewrite bool_decide_eq_true.
Qed.

(** C8. A stored notification is returned to a session exactly when the
    session's actor is its owner, and only the owner's UPDATE reaches it:
    the owner's mark-as-read is accepted and sets the flag, while for any
    other actor, whatever its role and so for an administrator too, the
    read returns no row and every update affects zero rows. *)
Theorem notification_owner_only d uid id n
    (Hn : notifications d !! id = Some n) :
  (select_notifications d uid !! id = Some n ↔ uid = Some (n_user_id n))
  ∧ (∀ s, rows_affected (update_notifications uid id s d) = 1%nat →
          uid = Some (n_user_id n))
  ∧ (uid = Some (n_user_id n) →
     ∃ d', update_notifications uid id mark_read d = Ok d' 1
           ∧ (n_is_read <$> notifications d' !! id) = Some true)
  ∧ (uid ≠ Some (n_user_id n) →
     select_notifications d uid !! id = None
     ∧ ∀ s, update_notifications uid id s d = Ok d 0).
Proof.
  split; [|split; [|split]].
  - rewrite select_notifications_Some. tauto.
  - intros s. unfold update_notifications.
    rewrite Hn, notifications_update_target.
    destruct (uid_eq uid (n_user_id n)) eqn:Hu; [|done].
    intros _. unfold uid_eq in Hu. by apply bool_decide_eq_true in Hu.
  - intros ->. unfold update_notifications.
    rewrite Hn, notifications_update_target, notifications_update_check.
    cbn [apply_nset mark_read nset_user_id nset_consultation_id default n_user_id
         n_consultation_id].
    unfold uid_eq. rewrite !bool_decide_eq_true_2 by done.
    cbn [negb orb andb]. eexists. split; [reflexivity|].
    cbn [notifications with_notifications]. by rewrite lookup_insert_eq.
  - intros Hne. split.
    + destruct (select_notifications d uid !! id) as [n'|] eqn:E; [|done].
      apply select_notifications_Some in E as [E1 E2]. congruence.
    + intros s. unfold update_notifications.
      rewrite Hn, notifications_update_target.
      unfold uid_eq. by rewrite bool_decide_eq_false_2.
Qed.

Lemma notification_owner_only_witness :
  let d := Scenario.approved_booking in
  ∃ n, notifications d !! 1%positive = Some n
       ∧ n_user_id n = Scenario.alice
       ∧ get_current_user_role d (Some Scenario.root) = "admin"
       ∧ select_notifications d (Some Scenario.root) !! 1%positive = None
       ∧ update_notifications (Some Scenario.root) 1%positive mark_read d = Ok d 0
       ∧ select_notifications d (Some Scenario.alice) !! 1%positive = Some n.
Proof.
  cbv zeta.
  eexists {| n_user_id := Scenario.alice; n_consultation_id := Some Scenario.booking;
             n_title := "Consultation Approved ✅";
             n_message := "Your consultation request has been approved! You will receive further details soon.";
             n_is_read := false; n_created_at := 200 |}.
  match goal with |- ?A ∧ _ => assert (H1 : A) by (vm_compute; reflexivity) end.
  split; [exact H1|]. split; [reflexivity|]. split; [vm_compute; reflexivity|].
  destruct (notification_owner_only _ (Some Scenario.root) _ _ H1) as (_ & _ & _ & Hroot).
  destruct Hroot as [Hsel Hupd]; [vm_compute; discriminate|].
  split; [exact Hsel|]. split; [apply Hupd|].
  apply (notification_owner_only _ (Some Scenario.alice) _ _ H1). reflexivity.
Defined.

(** ** Profiles *)

Lemma profiles_update_target d uid k r :
  update_target profiles_policies d uid k r = uid_eq uid k.
Proof. unfold update_target. policy_simpl. by destruct (uid_eq _ _). Qed.

Lemma profiles_update_check d uid k r :
  update_check profiles_policies d uid k r = uid_eq uid k.
Proof. unfold update_check. policy_simpl. by destruct (uid_eq _ _). Qed.

(** Provisioning gives every identity but the designated one the role user. *)
Lemma sign_up_role now id u d d' n :
  sign_up now id u d = Ok d' n →
  email u ≠ Some "omatulemarvellous721@gmail.com" →
  get_current_user_role d' (Some id) = "user".
Proof.
  unfold sign_up. destruct (auth_users d !! id); [done|].
  intros [= <- <-] He. unfold handle_new_user.
  rewrite bool_decide_eq_false_2 by done.
  unfold get_current_user_role.
  cbn [profiles with_auth_users with_profiles mbind option_bind].
  destruct (profiles d !! id);
    cbn [profiles with_profiles]; by rewrite lookup_insert_eq.
Qed.

(** C9. An actor whose profile row has the role user may update that row
    and set the role to admin: the update policy only compares the row's
    [user_id] with the session, the new value passes the CHECK constraint,
    and from then on the role lookup of the policies answers admin. *)
Theorem user_can_make_self_admin now u d p
    (Hp : profiles d !! u = Some p)
    (Hrole : p_role p = "user") :
  get_current_user_role d (Some u) = "user"
  ∧ ∃ d', update_profiles now (Some u) u (set_role "admin") d = Ok d' 1
          ∧ (p_role <$> profiles d' !! u) = Some "admin"
          ∧ get_current_user_role d' (Some u) = "admin".
Proof.
  split.
  - unfold get_current_user_role. cbn [mbind option_bind]. by rewrite Hp; cbn; rewrite Hrole.
  - unfold update_profiles.
    rewrite Hp, profiles_update_target, profiles_update_check.
    unfold uid_eq. rewrite !bool_decide_eq_true_2 by done.
    cbn [negb]. eexists. split; [reflexivity|].
    unfold get_current_user_role.
    cbn [profiles with_profiles mbind option_bind].
    by rewrite lookup_insert_eq.
Qed.

Lemma user_can_make_self_admin_witness :
  let d := Scenario.signed_up in
  let r := update_profiles 50 (Some Scenario.alice) Scenario.alice (set_role "admin") d in
  profiles d !! Scenario.alice
  = Some {| p_full_name := None; p_role := "user"; p_created_at := 10; p_updated_at := 10 |}
  ∧ get_current_user_role (db_after r d) (Some Scenario.alice) = "admin".
Proof.
  cbv zeta.
  match goal with |- ?A ∧ _ => assert (H1 : A) by (vm_compute; reflexivity) end.
  split; [exact H1|].
  destruct (user_can_make_self_admin 50 _ _ _ H1 eq_refl) as (_ & d' & -> & _ & Hadmin).
  exact Hadmin.
Defined.

(** ** Confirming a payment *)

(** C10. The owner's confirm-payment on a stored consultation is accepted
    whatever the status and the payment status of the row are: it writes
    paid and the chosen account, refreshes the timestamp, leaves the status
    alone and inserts no notification. *)
Theorem confirmPayment_unconditional `{DT : !datetime_input} now bank id d c
    (Hc : consultations d !! id = Some c)
    (Hvalid : consultations_check c = true) :
  ∃ d' NEW,
    confirmPayment now (Some (c_user_id c)) (Some id) (Some bank) d = Ok d' 1
    ∧ consultations d' !! id = Some NEW
    ∧ c_payment_status NEW = "paid"
    ∧ c_bank_account_id NEW = Some bank
    ∧ c_status NEW = c_status c
    ∧ c_user_id NEW = c_user_id c
    ∧ notifications d' = notifications d.
Proof.
  set (NEW := updated_row now (payment_set bank) c).
  assert (Hcheck : consultations_check NEW = true).
  { unfold consultations_check in *. cbn.
    repeat rewrite andb_true_iff in *. destruct Hvalid as [[[? ?] _] ?].
    repeat split; try done. }
  assert (Hsilent : status_change_notifies c NEW = false).
  { unfold status_change_notifies. cbn. by rewrite bool_decide_eq_false_2 by tauto. }
  exists (with_consultations (<[id := NEW]> (consultations d)) d), NEW.
  split; [|split; [|done]].
  - unfold confirmPayment, update_consultations.
    rewrite Hc, consultations_update_target, consultations_update_check.
    fold NEW. rewrite Hcheck.
    assert (Ha : ∀ r, c_user_id r = c_user_id c →
                      may_access d (Some (c_user_id c)) r = true).
    { intros r Hr. apply may_access_spec. left. by rewrite Hr. }
    rewrite !Ha by done. cbn [negb].
    rewrite (bool_decide_eq_true_2 (c_user_id NEW = c_user_id c)) by done.
    cbn [orb negb]. by rewrite notify_silent.
  - cbn. apply lookup_insert_eq.
Qed.

Lemma confirmPayment_unconditional_witness :
  let d := Scenario.declined_and_refunded in
  let c := updated_row 200 Scenario.decline_and_refund Scenario.stored_booking in
  consultations d !! Scenario.booking = Some c
  ∧ consultations_check c = true
  ∧ c_status c = "declined" ∧ c_payment_status c = "refunded"
  ∧ ∃ d', confirmPayment 300 (Some Scenario.alice) (Some Scenario.booking)
            (Some 7%positive) d = Ok d' 1
          ∧ (c_payment_status <$> consultations d' !! Scenario.booking) = Some "paid".
Proof.
  cbv zeta.
  set (c := updated_row 200 Scenario.decline_and_refund Scenario.stored_booking).
  assert (H1 : consultations Scenario.declined_and_refunded !! Scenario.booking = Some c)
    by (vm_compute; reflexivity).
  assert (H2 : consultations_check c = true) by (vm_compute; reflexivity).
  split; [exact H1|]. split; [exact H2|]. split; [reflexivity|]. split; [reflexivity|].
  destruct (confirmPayment_unconditional 300 7%positive _ _ _ H1 H2)
    as (d' & NEW & Hrun & Hrow & Hpaid & _).
  exists d'. split; [exact Hrun|]. by rewrite Hrow; cbn; rewrite Hpaid.
Defined.

(** * Further properties *)

(** ** When an UPDATE on [consultations] is accepted *)

(** The decision an UPDATE of a stored row goes through, gate by gate. *)
Lemma update_consultations_eq `{DT : !datetime_input} now uid id s d OLD :
  consultations d !! id = Some OLD →
  let NEW := updated_row now s OLD in
  update_consultations now uid id s d =
    if negb (may_access d uid OLD) then Ok d 0
    else if negb (set_literals_ok s) then Err invalid_datetime_format
    else if negb (may_access d uid NEW) then Err rls_violation
    else if negb (consultations_check NEW) then Err check_violation
    else if negb (bool_decide (c_user_id NEW = c_user_id OLD)
                  || references_auth_users d (c_user_id NEW))
    then Err foreign_key_violation
    else if status_change_notifies OLD NEW && negb (references_auth_users d (c_user_id NEW))
    then Err foreign_key_violation
    else Ok (store_updated now id OLD NEW d) 1.
Proof.
  intros Hold NEW. unfold update_consultations.
  rewrite Hold, consultations_update_target, consultations_update_check. fold NEW.
  repeat (case_match; [reflexivity|]).
  unfold notify_consultation_status_change, store_updated, insert_notification.
  destruct (status_change_notifies OLD NEW) eqn:Hf; [|reflexivity].
  destruct (notification_texts_defined _ _ Hf) as (t & m & Ht & Hm).
  unfold notification_of. rewrite Ht, Hm. cbn [default andb].
  assert (Hrc : references_consultations
                  (with_consultations (<[id:=NEW]> (consultations d)) d) (Some id) = true).
  { cbn. apply bool_decide_eq_true. rewrite lookup_insert_eq. eauto. }
  rewrite Hrc, andb_true_r.
  change (references_auth_users (with_consultations _ d) ?u)
    with (references_auth_users d u).
  by destruct (references_auth_users d (c_user_id NEW)).
Qed.



(** ** DELETE is granted to nobody *)

Lemma consultations_delete_target d uid k r :
  delete_target consultations_policies d uid k r = false.
Proof. unfold delete_target. policy_simpl. reflexivity. Qed.

Lemma notifications_delete_target d uid k r :
  delete_target notifications_policies d uid k r = false.
Proof. unfold delete_target. policy_simpl. reflexivity. Qed.

Lemma profiles_delete_target d uid k r :
  delete_target profiles_policies d uid k r = false.
Proof. unfold delete_target. policy_simpl. reflexivity. Qed.

Lemma delete_consultations_none uid id d : delete_consultations uid id d = Ok d 0.
Proof.
  unfold delete_consultations. destruct (consultations d !! id); [|done].
  by rewrite consultations_delete_target.
Qed.

Lemma delete_notifications_none uid id d : delete_notifications uid id d = Ok d 0.
Proof.
  unfold delete_notifications. destruct (notifications d !! id); [|done].
  by rewrite notifications_delete_target.
Qed.

Lemma delete_profiles_none uid id d : delete_profiles uid id d = Ok d 0.
Proof.
  unfold delete_profiles. destruct (profiles d !! id); [|done].
  by rewrite profiles_delete_target.
Qed.

(** X2. No session, whatever its actor and role, can delete a consultation,
    a notification or a profile: the tables have row-level security enabled
    and no policy for DELETE, so each such statement affects zero rows and
    leaves the store as it was. *)
Theorem nobody_deletes uid id d :
  delete_consultations uid id d = Ok d 0
  ∧ delete_notifications uid id d = Ok d 0
  ∧ delete_profiles uid id d = Ok d 0.
Proof.
  split; [apply delete_consultations_none|].
  split; [apply delete_notifications_none|apply delete_profiles_none].
Qed.

(** ** The constraints hold in every store the statements produce *)

Lemma db_valid_empty : db_valid empty_db.
Proof. split; [|split]; apply map_Forall_empty. Qed.

Lemma valid_consultations_insert d id NEW :
  db_valid d → consultations_check NEW = true →
  is_Some (auth_users d !! c_user_id NEW) →
  db_valid (with_consultations (<[id := NEW]> (consultations d)) d).
Proof.
  intros (Hc & Hn & Hp) Hck Hu. split; [|split]; cbn.
  - apply map_Forall_insert_2; done.
  - intros k n Hk. destruct (Hn k n Hk) as [Hnu Hnc]. split; [done|].
    intros c Hcn. rewrite lookup_insert_is_Some'. right. by apply Hnc.
  - done.
Qed.

Lemma valid_notifications_insert d k n :
  db_valid d → is_Some (auth_users d !! n_user_id n) →
  (∀ c, n_consultation_id n = Some c → is_Some (consultations d !! c)) →
  db_valid (with_notifications (<[k := n]> (notifications d)) d).
Proof.
  intros (Hc & Hn & Hp) Hu Hr. split; [|split]; cbn; [done| |done].
  apply map_Forall_insert_2; done.
Qed.

Lemma valid_profiles_insert d u p :
  db_valid d → profiles_check p = true → is_Some (auth_users d !! u) →
  db_valid (with_profiles (<[u := p]> (profiles d)) d).
Proof.
  intros (Hc & Hn & Hp) Hck Hu. split; [|split]; cbn; [done|done|].
  apply map_Forall_insert_2; done.
Qed.

Lemma valid_auth_users_insert d id u :
  db_valid d → db_valid (with_auth_users (<[id := u]> (auth_users d)) d).
Proof.
  intros (Hc & Hn & Hp). split; [|split]; cbn.
  - intros k c Hk. destruct (Hc k c Hk). split; [done|].
    rewrite lookup_insert_is_Some'. by right.
  - intros k n Hk. destruct (Hn k n Hk). split; [|done].
    rewrite lookup_insert_is_Some'. by right.
  - intros k p Hk. destruct (Hp k p Hk). split; [done|].
    rewrite lookup_insert_is_Some'. by right.
Qed.

Lemma valid_update_consultations `{DT : !datetime_input} now uid id s d :
  db_valid d → db_valid (db_after (update_consultations now uid id s d) d).
Proof.
  intros Hd. destruct (consultations d !! id) as [OLD|] eqn:Hold.
  2:{ by rewrite update_consultations_missing. }
  rewrite (update_consultations_eq _ _ _ _ _ _ Hold).
  set (NEW := updated_row now s OLD).
  destruct (may_access d uid OLD); [|done].
  destruct (set_literals_ok s); [|done].
  destruct (may_access d uid NEW); [|done].
  destruct (consultations_check NEW) eqn:Hck; [|done].
  destruct (bool_decide (c_user_id NEW = c_user_id OLD)
            || references_auth_users d (c_user_id NEW)) eqn:Hfk; [|done].
  cbn [negb].
  destruct (status_change_notifies OLD NEW && _); [done|]. cbn [db_after].
  assert (Hu : is_Some (auth_users d !! c_user_id NEW)).
  { apply orb_true_iff in Hfk as [H|H].
    - apply bool_decide_eq_true in H. rewrite H.
      destruct Hd as (Hc & _). by destruct (Hc id OLD Hold).
    - by apply references_auth_users_spec. }
  pose proof (valid_consultations_insert d id NEW Hd Hck Hu) as Hd1.
  unfold store_updated. destruct (status_change_notifies OLD NEW); [|done].
  apply (valid_notifications_insert _ _ _ Hd1); cbn.
  - done.
  - intros c [= <-]. rewrite lookup_insert_eq. eauto.
Qed.

Lemma valid_insert_consultations `{DT : !datetime_input} now uid i d :
  db_valid d → db_valid (db_after (insert_consultations now uid i d) d).
Proof.
  intros Hd. unfold insert_consultations.
  destruct (insert_literals_ok i); [|done].
  destruct (ins_user_id i); [|done].
  destruct (rls_with_check consultations_policies INSERT d uid _ _); [|done].
  destruct (inserted_row now i) as [NEW|]; [|done].
  destruct (consultations_check NEW) eqn:Hck; [|done].
  destruct (references_auth_users d (c_user_id NEW)) eqn:Hu; [|done].
  cbn [negb db_after].
  apply valid_consultations_insert; [done|done|].
  by apply references_auth_users_spec.
Qed.

Lemma references_consultations_spec d o :
  references_consultations d o = true ↔ ∀ c, o = Some c → is_Some (consultations d !! c).
Proof.
  destruct o as [c|]; cbn.
  - rewrite bool_decide_eq_true. split; [by intros ? ? [= <-]|eauto].
  - split; done.
Qed.

Lemma valid_insert_notifications now uid i d :
  db_valid d → db_valid (db_after (insert_notifications now uid i d) d).
Proof.
  intros Hd. unfold insert_notifications.
  destruct (inserted_notification now i) as [NEW|]; [|done].
  destruct (rls_with_check notifications_policies INSERT d uid _ NEW); [|done].
  destruct (references_auth_users d (n_user_id NEW)) eqn:H1; [|done].
  destruct (references_consultations d (n_consultation_id NEW)) eqn:H2; [|done].
  cbn [negb andb db_after].
  apply valid_notifications_insert; [done| |].
  - by apply references_auth_users_spec.
  - by apply references_consultations_spec.
Qed.

Lemma valid_update_notifications uid id s d :
  db_valid d → db_valid (db_after (update_notifications uid id s d) d).
Proof.
  intros Hd. unfold update_notifications.
  destruct (notifications d !! id) as [OLD|] eqn:Hold; [|done].
  destruct (update_target notifications_policies d uid id OLD); [|done].
  destruct (update_check notifications_policies d uid id (apply_nset s OLD)); [|done].
  cbn [negb].
  destruct (bool_decide (n_user_id (apply_nset s OLD) = n_user_id OLD)
            || references_auth_users d (n_user_id (apply_nset s OLD))) eqn:H1; [|done].
  destruct (bool_decide (n_consultation_id (apply_nset s OLD) = n_consultation_id OLD)
            || references_consultations d (n_consultation_id (apply_nset s OLD)))
    eqn:H2; [|done].
  cbn [negb andb db_after].
  pose proof Hd as (Hc & Hn & Hp). destruct (Hn id OLD Hold) as [Hou Hoc].
  apply valid_notifications_insert; [done| |].
  - apply orb_true_iff in H1 as [H1|H1].
    + apply bool_decide_eq_true in H1. by rewrite H1.
    + by apply references_auth_users_spec.
  - apply orb_true_iff in H2 as [H2|H2].
    + apply bool_decide_eq_true in H2. by rewrite H2.
    + by apply references_consultations_spec.
Qed.

Lemma valid_update_profiles now uid u s d :
  db_valid d → db_valid (db_after (update_profiles now uid u s d) d).
Proof.
  intros Hd. unfold update_profiles.
  destruct (profiles d !! u) as [OLD|] eqn:Hold; [|done].
  destruct (update_target profiles_policies d uid u OLD); [|done].
  destruct (update_check profiles_policies d uid u _); [|done].
  destruct (profiles_check _) eqn:Hck; [|done].
  cbn [negb db_after].
  apply valid_profiles_insert; [done|done|].
  destruct Hd as (_ & _ & Hp). by destruct (Hp u OLD Hold).
Qed.

Lemma valid_sign_up now id u d :
  db_valid d → db_valid (db_after (sign_up now id u d) d).
Proof.
  intros Hd. unfold sign_up. destruct (auth_users d !! id); [done|]. cbn [db_after].
  pose proof (valid_auth_users_insert d id u Hd) as Hd1.
  unfold handle_new_user.
  destruct (profiles _ !! id);
    (apply valid_profiles_insert;
       [done
       |unfold profiles_check; cbn;
        destruct (bool_decide (email u = _)); apply bool_decide_eq_true; set_solver
       |cbn; rewrite lookup_insert_eq; eauto]).
Qed.

Lemma valid_delete_auth_user id d :
  db_valid d → db_valid (db_after (delete_auth_user id d) d).
Proof.
  intros (Hc & Hn & Hp). unfold delete_auth_user.
  destruct (auth_users d !! id); [|done]. cbn [db_after].
  split; [|split]; cbn.
  - intros k c Hk. apply map_lookup_filter_Some in Hk as [Hk Hne]. cbn in Hne.
    destruct (Hc k c Hk). split; [done|]. by rewrite lookup_delete_ne.
  - intros k n Hk. apply map_lookup_filter_Some in Hk as [Hk Hne]. cbn in Hne.
    apply andb_prop_elim in Hne as [Hne Hr]. apply bool_decide_unpack in Hne.
    destruct (Hn k n Hk). split; [by rewrite lookup_delete_ne|].
    intros c Hcn. rewrite Hcn in Hr. by apply bool_decide_unpack in Hr.
  - intros k p Hk. apply lookup_delete_Some in Hk as [Hne Hk].
    destruct (Hp k p Hk). split; [done|]. by rewrite lookup_delete_ne.
Qed.

Lemma run_preserves_valid `{DT : !datetime_input} st d :
  db_valid d → db_valid (db_after (run st d) d).
Proof.
  intros Hd. destruct st; cbn [run].
  - by apply valid_sign_up.
  - by apply valid_delete_auth_user.
  - by apply valid_insert_consultations.
  - by apply valid_update_consultations.
  - by rewrite delete_consultations_none.
  - by apply valid_insert_notifications.
  - by apply valid_update_notifications.
  - by rewrite delete_notifications_none.
  - by apply valid_update_profiles.
  - by rewrite delete_profiles_none.
Qed.

(** X3. The CHECK constraints and the foreign keys of the three tables are
    an invariant of the store: whatever statements are run on a store that
    satisfies them, accepted or not, by whatever sessions, the resulting
    store satisfies them; every stored status, payment status, kind and
    role is one of the permitted values and no row refers to a missing
    identity or consultation. *)
Theorem store_stays_valid `{DT : !datetime_input} sts d (Hd : db_valid d) : db_valid (run_all sts d).
Proof.
  revert d Hd. induction sts as [|st sts IH]; intros d Hd; [done|].
  cbn. apply IH. by apply run_preserves_valid.
Qed.

Lemma store_stays_valid_witness :
  db_valid empty_db
  ∧ db_valid (run_all [SignUp 10 Scenario.alice (Scenario.identity "alice@example.org");
                       InsertConsultation 100 (Some Scenario.alice) Scenario.future_dated;
                       UpdateConsultation 200 (Some Scenario.alice) Scenario.booking
                         (Scenario.set_status_to "approved");
                       DeleteUser Scenario.alice] empty_db).
Proof.
  split; [apply db_valid_empty|].
  apply (store_stays_valid _ empty_db). apply db_valid_empty.
Defined.


(** ** Booking *)

Lemma booked_row_check now user fd :
  consultations_check (booked_row now user fd)
  = bool_decide (fd_consultation_type fd ∈ ["video_call"; "phone_call"; "chat"]).
Proof.
  unfold consultations_check, booked_row. cbn [c_consultation_type c_status
    c_payment_status c_amount].
  change (bool_decide ("pending" ∈ _)) with true.
  change (bool_decide ("unpaid" ∈ _)) with true.
  change (decimal_10_2_ok 5000) with true.
  by rewrite !andb_true_r.
Qed.

Lemma handleSubmit_eq `{DT : !datetime_input} now user fd d :
  handleSubmit now (Some user) fd d =
    if negb (date_in (fd_preferred_date fd) && time_in (fd_preferred_time fd))
    then Err invalid_datetime_format
    else if negb (bool_decide (fd_consultation_type fd
                                ∈ ["video_call"; "phone_call"; "chat"]))
    then Err check_violation
    else if negb (references_auth_users d user) then Err foreign_key_violation
    else Ok (with_consultations
               (<[fresh (dom (consultations d)) := booked_row now user fd]>
                  (consultations d)) d) 1.
Proof.
  unfold handleSubmit, insert_consultations, insert_literals_ok.
  cbn [inserted_row ins_user_id ins_doctor_name
    ins_consultation_type ins_preferred_date ins_preferred_time ins_symptoms ins_status
    ins_payment_status ins_amount ins_bank_account_id ins_admin_notes ins_created_at
    ins_updated_at mbind option_bind default from_option].
  fold (booked_row now user fd).
  rewrite consultations_insert_with_check, booked_row_check.
  cbn [row_for_policies c_user_id].
  unfold uid_eq. by rewrite bool_decide_eq_true_2.
Qed.


(** X5. An accepted booking adds exactly one consultation under an unused
    key: it belongs to the user, is pending and unpaid, carries the amount
    50.00 and the transaction time in both timestamps, and copies the
    form; every other consultation, every notification and every profile
    is left as it was. *)
Theorem handleSubmit_adds_pending_row `{DT : !datetime_input} now user fd d d' n
    (Haccepted : handleSubmit now (Some user) fd d = Ok d' n) :
  let id := fresh (dom (consultations d)) in
  n = 1%nat
  ∧ consultations d !! id = None
  ∧ consultations d' = <[id := booked_row now user fd]> (consultations d)
  ∧ size (consultations d') = S (size (consultations d))
  ∧ notifications d' = notifications d
  ∧ profiles d' = profiles d
  ∧ auth_users d' = auth_users d.
Proof.
  cbv zeta. rewrite handleSubmit_eq in Haccepted.
  do 3 (case_match; [discriminate|]). injection Haccepted as <- <-.
  assert (Hfresh : consultations d !! fresh (dom (consultations d)) = None)
    by apply not_elem_of_dom, is_fresh.
  repeat split; try done. cbn. by apply map_size_insert_None.
Qed.

Lemma handleSubmit_adds_pending_row_witness :
  let d := Scenario.signed_up in
  let r := handleSubmit 100 (Some Scenario.alice) Scenario.phone_booking d in
  r = Ok (db_after r d) 1
  ∧ consultations (db_after r d) !! 1%positive
    = Some (booked_row 100 Scenario.alice Scenario.phone_booking).
Proof.
  cbv zeta.
  set (r := handleSubmit 100 (Some Scenario.alice) Scenario.phone_booking Scenario.signed_up).
  assert (H1 : r = Ok (db_after r Scenario.signed_up) 1) by (vm_compute; reflexivity).
  split; [exact H1|].
  destruct (handleSubmit_adds_pending_row _ _ _ _ _ _ H1) as (_ & _ & -> & _).
  replace (fresh (dom (consultations Scenario.signed_up))) with 1%positive
    by (vm_compute; reflexivity).
  apply lookup_insert_eq.
Defined.

(** X6. Nobody can create a consultation for someone else: an INSERT whose
    [user_id] is not the session's own actor is rejected and leaves the
    store as it was, whatever the role of the session, administrators
    included. *)
Theorem nobody_books_for_another `{DT : !datetime_input} now uid i d u
    (Hu : ins_user_id i = Some u)
    (Hother : uid ≠ Some u) :
  rows_affected (insert_consultations now uid i d) = 0%nat
  ∧ db_after (insert_consultations now uid i d) d = d.
Proof.
  unfold insert_consultations.
  destruct (insert_literals_ok i); [|done]. cbn [negb].
  rewrite Hu, consultations_insert_with_check. cbn [row_for_policies c_user_id].
  unfold uid_eq. by rewrite bool_decide_eq_false_2.
Qed.

Lemma nobody_books_for_another_witness :
  let d := Scenario.signed_up in
  get_current_user_role d (Some Scenario.root) = "admin"
  ∧ ins_user_id Scenario.future_dated = Some Scenario.alice
  ∧ Some Scenario.root ≠ Some Scenario.alice
  ∧ db_after (insert_consultations 100 (Some Scenario.root) Scenario.future_dated d) d = d.
Proof.
  cbv zeta. split; [vm_compute; reflexivity|]. split; [reflexivity|].
  assert (H : Some Scenario.root ≠ Some Scenario.alice) by (vm_compute; discriminate).
  split; [exact H|].
  exact (proj2 (nobody_books_for_another 100 (Some Scenario.root) Scenario.future_dated
                  Scenario.signed_up Scenario.alice eq_refl H)).
Defined.

(** ** Notifications sent and kept *)



(** X8. The owner of a notification never changes: whatever a session
    sends as an update of a stored notification, the row that is stored
    afterwards has the same [user_id]. *)
Theorem notification_owner_fixed uid id s d n
    (Hn : notifications d !! id = Some n) :
  ∃ n', notifications (db_after (update_notifications uid id s d) d) !! id = Some n'
        ∧ n_user_id n' = n_user_id n.
Proof.
  unfold update_notifications.
  rewrite Hn, notifications_update_target, notifications_update_check.
  destruct (uid_eq uid (n_user_id n)) eqn:Ho; cbn [negb db_after]; [|by eauto].
  destruct (uid_eq uid (n_user_id (apply_nset s n))) eqn:Hw; cbn [negb db_after];
    [|by eauto].
  case_match; cbn [db_after]; [by eauto|].
  eexists. split; [cbn; apply lookup_insert_eq|].
  unfold uid_eq in *. apply bool_decide_eq_true in Ho, Hw. congruence.
Qed.

(** X9. The owner's mark-as-read changes the read flag of that one
    notification and nothing else in the store, and sending it a second
    time changes nothing. *)
Theorem mark_read_effect d id n
    (Hn : notifications d !! id = Some n) :
  let uid := Some (n_user_id n) in
  let d1 := db_after (update_notifications uid id mark_read d) d in
  notifications d1
  = <[id := {| n_user_id := n_user_id n; n_consultation_id := n_consultation_id n;
               n_title := n_title n; n_message := n_message n;
               n_is_read := true; n_created_at := n_created_at n |}]> (notifications d)
  ∧ consultations d1 = consultations d
  ∧ profiles d1 = profiles d
  ∧ auth_users d1 = auth_users d
  ∧ db_after (update_notifications uid id mark_read d1) d1 = d1.
Proof.
  cbv zeta.
  assert (Hrun : ∀ d0 n0, notifications d0 !! id = Some n0 →
    update_notifications (Some (n_user_id n0)) id mark_read d0
    = Ok (with_notifications (<[id := apply_nset mark_read n0]> (notifications d0)) d0) 1).
  { intros d0 n0 H0. unfold update_notifications.
    rewrite H0, notifications_update_target, notifications_update_check.
    cbn [apply_nset mark_read nset_user_id nset_consultation_id default n_user_id
         n_consultation_id].
    unfold uid_eq. rewrite !bool_decide_eq_true_2 by done. reflexivity. }
  rewrite (Hrun d n Hn). cbn [db_after].
  repeat split.
  set (d1 := with_notifications _ d).
  assert (H1 : notifications d1 !! id = Some (apply_nset mark_read n))
    by (cbn; apply lookup_insert_eq).
  change (Some (n_user_id n)) with (Some (n_user_id (apply_nset mark_read n))).
  rewrite (Hrun d1 _ H1). cbn [db_after].
  unfold d1, with_notifications. cbn. f_equal. by rewrite insert_insert_eq.
Qed.

Lemma notification_owner_fixed_witness :
  let d := Scenario.approved_booking in
  let s := {| nset_user_id := Some Scenario.bob; nset_consultation_id := None;
              nset_title := None; nset_message := None; nset_is_read := None;
              nset_created_at := None |} in
  ∃ n, notifications d !! 1%positive = Some n
       ∧ update_notifications (Some Scenario.alice) 1%positive s d = Err rls_violation
       ∧ ∃ n', notifications (db_after (update_notifications (Some Scenario.alice)
                                           1%positive s d) d) !! 1%positive = Some n'
               ∧ n_user_id n' = n_user_id n.
Proof.
  cbv zeta.
  eexists {| n_user_id := Scenario.alice; n_consultation_id := Some Scenario.booking;
             n_title := "Consultation Approved ✅";
             n_message := "Your consultation request has been approved! You will receive further details soon.";
             n_is_read := false; n_created_at := 200 |}.
  match goal with |- ?A ∧ _ => assert (H1 : A) by (vm_compute; reflexivity) end.
  split; [exact H1|]. split; [vm_compute; reflexivity|].
  exact (notification_owner_fixed (Some Scenario.alice) _ _ _ _ H1).
Defined.

Lemma mark_read_effect_witness :
  let d := Scenario.approved_booking in
  ∃ n, notifications d !! 1%positive = Some n
       ∧ (n_is_read <$> notifications
            (db_after (update_notifications (Some (n_user_id n)) 1%positive mark_read d) d)
            !! 1%positive) = Some true.
Proof.
  cbv zeta.
  eexists {| n_user_id := Scenario.alice; n_consultation_id := Some Scenario.booking;
             n_title := "Consultation Approved ✅";
             n_message := "Your consultation request has been approved! You will receive further details soon.";
             n_is_read := false; n_created_at := 200 |}.
  match goal with |- ?A ∧ _ => assert (H1 : A) by (vm_compute; reflexivity) end.
  split; [exact H1|].
  destruct (mark_read_effect _ _ _ H1) as (-> & _).
  by rewrite lookup_insert_eq.
Defined.


(** ** Profiles and roles *)

Lemma select_profiles_Some d uid u p :
  select_profiles d uid !! u = Some p ↔ profiles d !! u = Some p ∧ uid = Some u.
Proof.
  unfold select_profiles. rewrite map_lookup_filter_Some. cbn [fst snd].
  assert (H : rls_using profiles_policies SELECT d uid u p = uid_eq uid u).
  { policy_simpl. by destruct (uid_eq _ _). }
  rewrite H, Is_true_true. unfold uid_eq. by rewrite bool_decide_eq_true.
Qed.

(** X10. A profile is read and updated by its own user only: the query
    returns the row exactly to that user, and an update sent by any other
    session, an administrator's too, affects zero rows. *)
Theorem profile_owner_only d uid u p
    (Hp : profiles d !! u = Some p) :
  (select_profiles d uid !! u = Some p ↔ uid = Some u)
  ∧ (uid ≠ Some u →
     select_profiles d uid !! u = None
     ∧ ∀ now s, update_profiles now uid u s d = Ok d 0).
Proof.
  split.
  - rewrite select_profiles_Some. tauto.
  - intros Hne. split.
    + destruct (select_profiles d uid !! u) as [p'|] eqn:E; [|done].
      apply select_profiles_Some in E as [_ E]. done.
    + intros now s. unfold update_profiles.
      rewrite Hp, profiles_update_target. unfold uid_eq.
      by rewrite bool_decide_eq_false_2.
Qed.

Lemma profile_owner_only_witness :
  let d := Scenario.signed_up in
  ∃ p, profiles d !! Scenario.alice = Some p
       ∧ get_current_user_role d (Some Scenario.root) = "admin"
       ∧ select_profiles d (Some Scenario.root) !! Scenario.alice = None
       ∧ update_profiles 50 (Some Scenario.root) Scenario.alice (set_role "admin") d
         = Ok d 0.
Proof.
  cbv zeta.
  eexists {| p_full_name := None; p_role := "user"; p_created_at := 10; p_updated_at := 10 |}.
  match goal with |- ?A ∧ _ => assert (H1 : A) by (vm_compute; reflexivity) end.
  split; [exact H1|]. split; [vm_compute; reflexivity|].
  destruct (profile_owner_only _ (Some Scenario.root) _ _ H1) as [_ H].
  destruct H as [Hs Hu]; [vm_compute; discriminate|]. split; [exact Hs|apply Hu].
Defined.

(** X11. The admin dashboard's own check and the policies' role lookup
    agree: [checkAdminAccess] sets the admin flag for a signed-in user
    exactly when [get_current_user_role()] answers admin in that user's
    session. *)
Theorem checkAdminAccess_agrees d user :
  checkAdminAccess d user = true ↔ get_current_user_role d (Some user) = "admin".
Proof.
  unfold checkAdminAccess, get_current_user_role. cbn [mbind option_bind].
  destruct (profiles d !! user) as [p|] eqn:Hp.
  - assert (H : select_profiles d (Some user) !! user = Some p)
      by (by apply select_profiles_Some).
    rewrite H. cbn. apply bool_decide_eq_true.
  - assert (H : select_profiles d (Some user) !! user = None).
    { destruct (select_profiles d (Some user) !! user) eqn:E; [|done].
      apply select_profiles_Some in E as [E _]. congruence. }
    rewrite H. cbn. split; done.
Qed.

(** X12. Provisioning decides the role by the e-mail address alone: the
    new identity gets the role admin exactly when its address is the
    designated one, its profile carries the name of the sign-up data, and
    no other identity's role and no consultation or notification changes. *)
Theorem sign_up_roles now id u d d' n
    (Hrun : sign_up now id u d = Ok d' n) :
  (get_current_user_role d' (Some id) = "admin"
   ↔ email u = Some "omatulemarvellous721@gmail.com")
  ∧ (p_full_name <$> profiles d' !! id) = Some (raw_full_name u)
  ∧ (∀ other, other ≠ id →
       get_current_user_role d' (Some other) = get_current_user_role d (Some other))
  ∧ consultations d' = consultations d
  ∧ notifications d' = notifications d.
Proof.
  unfold sign_up in Hrun. destruct (auth_users d !! id); [done|].
  injection Hrun as <- <-. unfold handle_new_user, get_current_user_role.
  cbn [profiles with_auth_users mbind option_bind].
  destruct (profiles d !! id);
    cbn [profiles consultations notifications with_profiles with_auth_users];
    rewrite lookup_insert_eq; cbn;
    (split; [case_bool_decide; split; done|]);
    (split; [done|]); (split; [|done]);
    intros other Hne; by rewrite lookup_insert_ne.
Qed.

Lemma sign_up_roles_witness :
  let r := sign_up 12 Scenario.root (Scenario.identity "omatulemarvellous721@gmail.com")
             empty_db in
  r = Ok (db_after r empty_db) 1
  ∧ get_current_user_role (db_after r empty_db) (Some Scenario.root) = "admin".
Proof.
  cbv zeta.
  set (r := sign_up 12 Scenario.root (Scenario.identity "omatulemarvellous721@gmail.com")
              empty_db).
  assert (H1 : r = Ok (db_after r empty_db) 1) by (vm_compute; reflexivity).
  split; [exact H1|].
  apply (sign_up_roles _ _ _ _ _ _ H1). reflexivity.
Defined.

(** X13. The statement that closes migration 20250916144219 makes admin
    exactly the existing profiles of the designated address: afterwards an
    identity has the role admin if and only if it had it before or its
    profile exists and its address is the designated one. *)
Theorem grant_designated_admin_roles now d u :
  get_current_user_role (grant_designated_admin now d) (Some u) = "admin"
  ↔ get_current_user_role d (Some u) = "admin"
    ∨ (is_Some (profiles d !! u)
       ∧ auth_users d !! u ≫= email = Some "omatulemarvellous721@gmail.com").
Proof.
  unfold get_current_user_role, grant_designated_admin.
  cbn [profiles with_profiles mbind option_bind].
  rewrite map_lookup_imap.
  destruct (profiles d !! u) as [p|]; cbn.
  - case_bool_decide; cbn.
    + split; [intros _; right; split; [by eauto|done]|done].
    + split; [by left|]. intros [?|[_ ?]]; done.
  - split; [done|]. intros [?|[[? ?] _]]; done.
Qed.

(** ** Roles change through one statement only *)

Lemma update_consultations_frame `{DT : !datetime_input} now uid id s d :
  let d' := db_after (update_consultations now uid id s d) d in
  profiles d' = profiles d ∧ auth_users d' = auth_users d.
Proof.
  cbv zeta. destruct (consultations d !! id) as [OLD|] eqn:Hold.
  2:{ by rewrite update_consultations_missing. }
  rewrite (update_consultations_eq _ _ _ _ _ _ Hold).
  repeat (case_match; [done|]). cbn [db_after]. unfold store_updated.
  by case_match.
Qed.

Lemma client_statement_profiles `{DT : !datetime_input} st d :
  client_statement st →
  (∀ now uid user_id s, st ≠ UpdateProfile now uid user_id s) →
  profiles (db_after (run st d) d) = profiles d.
Proof.
  intros Hc Hne. destruct st; cbn [run]; try done.
  - unfold insert_consultations. repeat case_match; done.
  - apply update_consultations_frame.
  - by rewrite delete_consultations_none.
  - unfold insert_notifications. repeat case_match; done.
  - unfold update_notifications. repeat case_match; done.
  - by rewrite delete_notifications_none.
  - by destruct (Hne now uid user_id s).
  - by rewrite delete_profiles_none.
Qed.

(** X14. A statement sent through the API changes nobody's role but that
    of the session's own actor: if the role of an identity differs after
    a client statement, the statement is an update of that identity's
    profile sent from that identity's own session. *)
Theorem role_changes_only_by_self `{DT : !datetime_input} st d u
    (Hclient : client_statement st)
    (Hchanged : get_current_user_role (db_after (run st d) d) (Some u)
                ≠ get_current_user_role d (Some u)) :
  ∃ now s, st = UpdateProfile now (Some u) u s.
Proof.
  destruct st as [| | | | | | | |now uid target s|];
    try (exfalso; apply Hchanged; unfold get_current_user_role;
         rewrite client_statement_profiles; [done|done|intros; discriminate]).
  exists now, s. cbn [run] in Hchanged.
  destruct (decide (uid = Some target)) as [->|Huid].
  - destruct (decide (target = u)) as [->|Hu]; [done|].
    exfalso. apply Hchanged. unfold update_profiles.
    repeat case_match; cbn [db_after]; try done.
    unfold get_current_user_role. cbn [mbind option_bind profiles with_profiles].
    by rewrite lookup_insert_ne.
  - exfalso. apply Hchanged. unfold update_profiles.
    destruct (profiles d !! target); [|done].
    rewrite profiles_update_target. unfold uid_eq.
    by rewrite bool_decide_eq_false_2.
Qed.

Lemma role_changes_only_by_self_witness :
  let st := UpdateProfile 50 (Some Scenario.alice) Scenario.alice (set_role "admin") in
  let d := Scenario.signed_up in
  client_statement st
  ∧ get_current_user_role (db_after (run st d) d) (Some Scenario.alice)
    ≠ get_current_user_role d (Some Scenario.alice)
  ∧ ∃ now s, st = UpdateProfile now (Some Scenario.alice) Scenario.alice s.
Proof.
  cbv zeta.
  set (st := UpdateProfile 50 (Some Scenario.alice) Scenario.alice (set_role "admin")).
  assert (H1 : client_statement st) by exact I.
  assert (H2 : get_current_user_role (db_after (run st Scenario.signed_up)
                                        Scenario.signed_up) (Some Scenario.alice)
               ≠ get_current_user_role Scenario.signed_up (Some Scenario.alice))
    by (vm_compute; discriminate).
  split; [exact H1|]. split; [exact H2|].
  exact (role_changes_only_by_self st _ _ H1 H2).
Defined.

(** ** The administrator's decision *)






(** ** From self-promotion to other users' consultations *)




(** ** Bank accounts *)

Ltac bank_policy_simpl :=
  unfold policies_for, bank_accounts_policies;
  cbn [List.filter map granted_to gp_to gp_policy session_role db_role_eqb];
  policy_simpl.

Lemma role_of_anonymous d : get_current_user_role d None = "user".
Proof. reflexivity. Qed.

Lemma bank_select_using d uid k b :
  rls_using (policies_for uid bank_accounts_policies) SELECT d uid k b
  = (bool_decide (is_Some uid) && b_is_active b)
    || bool_decide (get_current_user_role d uid = "admin").
Proof.
  destruct uid as [u|]; bank_policy_simpl; unfold is_admin.
  - rewrite (bool_decide_eq_true_2 (is_Some (Some u))) by eauto.
    destruct (b_is_active b), (bool_decide (get_current_user_role _ _ = _)); done.
  - rewrite (bool_decide_eq_false_2 (is_Some None)) by (by intros [? ?]).
    by destruct (bool_decide (get_current_user_role _ _ = _)).
Qed.

Lemma bank_write_using d uid k b cmd :
  cmd = UPDATE ∨ cmd = DELETE →
  rls_using (policies_for uid bank_accounts_policies) cmd d uid k b
  = bool_decide (get_current_user_role d uid = "admin").
Proof.
  intros [-> | ->]; destruct uid; bank_policy_simpl; unfold is_admin;
    by destruct (bool_decide _).
Qed.

Lemma bank_with_check d uid k b cmd :
  cmd = UPDATE ∨ cmd = INSERT →
  rls_with_check (policies_for uid bank_accounts_policies) cmd d uid k b
  = bool_decide (get_current_user_role d uid = "admin").
Proof.
  intros [-> | ->]; destruct uid; bank_policy_simpl; unfold is_admin;
    by destruct (bool_decide _).
Qed.

Lemma select_bank_accounts_Some d uid banks id b :
  select_bank_accounts d uid banks !! id = Some b
  ↔ banks !! id = Some b
    ∧ ((is_Some uid ∧ b_is_active b = true) ∨ get_current_user_role d uid = "admin").
Proof.
  unfold select_bank_accounts. rewrite map_lookup_filter_Some. cbn [fst snd].
  rewrite bank_select_using, Is_true_true, orb_true_iff, andb_true_iff,
    !bool_decide_eq_true.
  done.
Qed.

(** X17. A stored bank account is returned to a session exactly when the
    session is signed in and the account is active, or the actor is an
    administrator; an anonymous session sees none. The list of the payment
    page, which asks for active accounts only, holds exactly the active
    accounts for every signed-in user, administrators included. *)
Theorem bank_accounts_read d uid banks id b
    (Hb : banks !! id = Some b) :
  (select_bank_accounts d uid banks !! id = Some b
   ↔ (is_Some uid ∧ b_is_active b = true) ∨ get_current_user_role d uid = "admin")
  ∧ (uid = None → select_bank_accounts d uid banks = ∅)
  ∧ (fetchData_banks d uid banks !! id = Some b ↔ is_Some uid ∧ b_is_active b = true).
Proof.
  split; [|split].
  - rewrite select_bank_accounts_Some. tauto.
  - intros ->. apply map_empty. intros k.
    destruct (select_bank_accounts d None banks !! k) as [b'|] eqn:E; [|done].
    apply select_bank_accounts_Some in E as [_ [[[? [=]] _]|E]].
    by rewrite role_of_anonymous in E.
  - unfold fetchData_banks. rewrite map_lookup_filter_Some, select_bank_accounts_Some.
    cbn [snd]. split.
    + intros [[_ [[? ?]|Ha]] Hact]; [done|]. split; [|done].
      destruct uid; [by eauto|]. by rewrite role_of_anonymous in Ha.
    + intros [? ?]. split; [|done]. split; [done|]. by left.
Qed.

(** X18. Only an administrator writes to [bank_accounts]: in a session
    whose role is not admin an INSERT is rejected, and an UPDATE or a
    DELETE of any account affects zero rows; the table is left as it was. *)
Theorem bank_accounts_write_admin_only now d uid banks
    (Hrole : get_current_user_role d uid ≠ "admin") :
  (∀ i, ∃ e, insert_bank_accounts now d uid i banks = BankErr e)
  ∧ (∀ id s, update_bank_accounts d uid id s banks = BankOk banks 0)
  ∧ (∀ id, delete_bank_accounts d uid id banks = BankOk banks 0).
Proof.
  split; [|split].
  - intros i. unfold insert_bank_accounts.
    destruct (inserted_bank_account now i); [|by eauto].
    rewrite bank_with_check by auto. rewrite bool_decide_eq_false_2 by done.
    by eauto.
  - intros id s. unfold update_bank_accounts.
    destruct (banks !! id); [|done]. unfold update_target.
    rewrite bank_write_using by auto. by rewrite bool_decide_eq_false_2.
  - intros id. unfold delete_bank_accounts.
    destruct (banks !! id); [|done]. unfold delete_target.
    rewrite bank_write_using by auto. by rewrite bool_decide_eq_false_2.
Qed.

(** X19. When an administrator deactivates a bank account the update is
    accepted and touches that row only; from then on the account is
    invisible to every session that is not an administrator's and is never
    on the payment page, while the administrator still reads it. *)
Theorem deactivated_account_hidden d uid banks id b
    (Hb : banks !! id = Some b)
    (Hadmin : get_current_user_role d uid = "admin") :
  let b' := apply_bset (set_is_active false) b in
  let banks' := <[id := b']> banks in
  update_bank_accounts d uid id (set_is_active false) banks = BankOk banks' 1
  ∧ select_bank_accounts d uid banks' !! id = Some b'
  ∧ (∀ other, get_current_user_role d other ≠ "admin" →
       select_bank_accounts d other banks' !! id = None)
  ∧ (∀ other, fetchData_banks d other banks' !! id = None).
Proof.
  cbv zeta. set (b' := apply_bset (set_is_active false) b).
  assert (Hb' : <[id := b']> banks !! id = Some b') by apply lookup_insert_eq.
  split; [|split; [|split]].
  - unfold update_bank_accounts. rewrite Hb. unfold update_target, update_check.
    rewrite bank_write_using, bank_with_check, !bank_select_using by auto.
    rewrite (bool_decide_eq_true_2 _ Hadmin), !orb_true_r. reflexivity.
  - apply select_bank_accounts_Some. split; [done|]. by right.
  - intros other Hother.
    destruct (select_bank_accounts d other _ !! id) as [x|] eqn:E; [|done].
    apply select_bank_accounts_Some in E as [E [[_ Hact]|?]]; [|done].
    rewrite Hb' in E. injection E as <-. discriminate Hact.
  - intros other.
    destruct (fetchData_banks d other _ !! id) as [x|] eqn:E; [|done].
    unfold fetchData_banks in E. apply map_lookup_filter_Some in E as [E Hact].
    apply select_bank_accounts_Some in E as [E _].
    rewrite Hb' in E. injection E as <-. discriminate Hact.
Qed.

Lemma bank_accounts_read_witness :
  let banks := sample_bank_accounts 5 in
  let d := Scenario.signed_up in
  ∃ b, banks !! 1%positive = Some b
       ∧ b_bank_name b = "Wells Fargo"
       ∧ select_bank_accounts d (Some Scenario.alice) banks !! 1%positive = Some b
       ∧ select_bank_accounts d None banks = ∅.
Proof.
  cbv zeta.
  eexists {| b_bank_name := "Wells Fargo";
             b_account_name := "HealthConnect Medical Services";
             b_account_number := "1234567890"; b_routing_number := Some "121000248";
             b_is_active := true; b_created_at := 5 |}.
  match goal with |- ?A ∧ _ => assert (H1 : A) by (vm_compute; reflexivity) end.
  split; [exact H1|]. split; [reflexivity|].
  split.
  - destruct (bank_accounts_read Scenario.signed_up (Some Scenario.alice) _ _ _ H1)
      as (Hsel & _).
    apply Hsel. left. split; [eauto|reflexivity].
  - destruct (bank_accounts_read Scenario.signed_up None _ _ _ H1) as (_ & Hanon & _).
    by apply Hanon.
Defined.

Lemma bank_accounts_write_admin_only_witness :
  let banks := sample_bank_accounts 5 in
  let d := Scenario.signed_up in
  get_current_user_role d (Some Scenario.alice) ≠ "admin"
  ∧ update_bank_accounts d (Some Scenario.alice) 1%positive (set_is_active false) banks
    = BankOk banks 0
  ∧ delete_bank_accounts d (Some Scenario.alice) 1%positive banks = BankOk banks 0.
Proof.
  cbv zeta.
  assert (H1 : get_current_user_role Scenario.signed_up (Some Scenario.alice) ≠ "admin")
    by (vm_compute; discriminate).
  split; [exact H1|].
  destruct (bank_accounts_write_admin_only 5 Scenario.signed_up (Some Scenario.alice)
              (sample_bank_accounts 5) H1) as (_ & Hu & Hd).
  split; [apply Hu|apply Hd].
Defined.

Lemma deactivated_account_hidden_witness :
  let banks := sample_bank_accounts 5 in
  let d := Scenario.signed_up in
  ∃ b, banks !! 1%positive = Some b
       ∧ get_current_user_role d (Some Scenario.root) = "admin"
       ∧ select_bank_accounts d (Some Scenario.alice)
           (banks_after (update_bank_accounts d (Some Scenario.root) 1%positive
                           (set_is_active false) banks) banks) !! 1%positive = None.
Proof.
  cbv zeta.
  eexists {| b_bank_name := "Wells Fargo";
             b_account_name := "HealthConnect Medical Services";
             b_account_number := "1234567890"; b_routing_number := Some "121000248";
             b_is_active := true; b_created_at := 5 |}.
  match goal with |- ?A ∧ _ => assert (H1 : A) by (vm_compute; reflexivity) end.
  assert (H2 : get_current_user_role Scenario.signed_up (Some Scenario.root) = "admin")
    by (vm_compute; reflexivity).
  split; [exact H1|]. split; [exact H2|].
  destruct (deactivated_account_hidden Scenario.signed_up (Some Scenario.root) _ _ _ H1 H2)
    as (-> & _ & Hhidden & _).
  cbn [banks_after]. apply Hhidden. vm_compute. discriminate.
Defined.

(** ** What the pages load *)

Lemma own_consultations_Some d user id c :
  own_consultations d user !! id = Some c
  ↔ consultations d !! id = Some c ∧ c_user_id c = user.
Proof.
  unfold own_consultations. rewrite map_lookup_filter_Some, select_consultations_Some.
  cbn [snd]. split; [tauto|]. intros [Hc Hu]. repeat split; try done.
  apply may_access_spec. left. by rewrite Hu.
Qed.

Lemma unpaid_consultations_Some d user id c :
  unpaid_consultations d user !! id = Some c
  ↔ consultations d !! id = Some c ∧ c_user_id c = user ∧ c_payment_status c = "unpaid".
Proof.
  unfold unpaid_consultations. rewrite map_lookup_filter_Some, own_consultations_Some.
  cbn [snd]. tauto.
Qed.

Lemma not_older_transitive : Transitive not_older.
Proof. intros a b c. unfold not_older. lia. Qed.

Lemma not_older_total : Total not_older.
Proof. intros a b. unfold not_older. lia. Qed.

(** X20. The consultation list of the user dashboard holds exactly the
    consultations owned by the signed-in user, each once and newest first,
    whatever the user's role: an administrator's own dashboard does not
    show other users' consultations. The query always has such an answer. *)
Theorem fetchUserData_rows d user :
  fetchUserData_consultations d user (fetchUserData_sorted d user)
  ∧ ∀ l, fetchUserData_consultations d user l →
         NoDup l
         ∧ newest_first l
         ∧ ∀ id c, (id, c) ∈ l ↔ consultations d !! id = Some c ∧ c_user_id c = user.
Proof.
  split.
  - split; [apply merge_sort_Permutation|].
    apply (@Sorted_merge_sort _ not_older _ not_older_total).
  - intros l [Hperm Hsorted]. split; [|split; [done|]].
    + rewrite Hperm. apply NoDup_map_to_list.
    + intros id c. by rewrite Hperm, elem_of_map_to_list, own_consultations_Some.
Qed.

(** X21. The consultation the payment page settles on is one of the
    signed-in user's own unpaid consultations and none of those was
    created later; the page finds none, and sends the user to the booking
    form, exactly when the user has no unpaid consultation. *)
Theorem fetchData_latest_unpaid d user r
    (Hr : fetchData_consultation d user r) :
  match r with
  | Some (id, c) =>
      consultations d !! id = Some c ∧ c_user_id c = user
      ∧ c_payment_status c = "unpaid"
      ∧ ∀ id' c', consultations d !! id' = Some c' → c_user_id c' = user →
                  c_payment_status c' = "unpaid" →
                  (c_created_at c' ≤ c_created_at c)%Z
  | None =>
      ∀ id' c', consultations d !! id' = Some c' → c_user_id c' = user →
                c_payment_status c' ≠ "unpaid"
  end.
Proof.
  destruct Hr as (l & Hperm & Hsorted & ->).
  assert (Hin : ∀ id c, (id, c) ∈ l ↔ consultations d !! id = Some c ∧ c_user_id c = user
                                        ∧ c_payment_status c = "unpaid").
  { intros id c. by rewrite Hperm, elem_of_map_to_list, unpaid_consultations_Some. }
  destruct l as [|[id c] l]; cbn [head].
  - intros id' c' H1 H2 H3. by apply (not_elem_of_nil (id', c')), Hin.
  - destruct (proj1 (Hin id c)) as (H1 & H2 & H3); [by left|].
    repeat split; try done.
    intros id' c' H1' H2' H3'.
    assert (Hel : (id', c') ∈ (id, c) :: l) by (by apply Hin).
    apply (@Sorted_StronglySorted _ not_older not_older_transitive) in Hsorted.
    apply StronglySorted_inv in Hsorted as [_ Hall].
    apply elem_of_cons in Hel as [[= -> ->]|Hel]; [lia|].
    rewrite Forall_forall in Hall. apply (Hall _ Hel).
Qed.

Lemma fetchData_latest_unpaid_witness :
  let r := Some (Scenario.booking, Scenario.stored_booking) in
  fetchData_consultation Scenario.booked Scenario.alice r
  ∧ c_payment_status Scenario.stored_booking = "unpaid".
Proof.
  cbv zeta.
  assert (H1 : fetchData_consultation Scenario.booked Scenario.alice
                 (Some (Scenario.booking, Scenario.stored_booking))).
  { exists [(Scenario.booking, Scenario.stored_booking)].
    split; [vm_compute; reflexivity|]. split; [|reflexivity].
    repeat constructor. }
  split; [exact H1|].
  exact (proj1 (proj2 (proj2 (fetchData_latest_unpaid _ _ _ H1)))).
Defined.

Lemma confirmPayment_eq `{DT : !datetime_input} now id bank d c :
  consultations d !! id = Some c →
  consultations_check c = true →
  confirmPayment now (Some (c_user_id c)) (Some id) (Some bank) d
  = Ok (with_consultations (<[id := updated_row now (payment_set bank) c]> (consultations d))
          d) 1.
Proof.
  intros Hc Hvalid. unfold confirmPayment.
  rewrite (update_consultations_eq _ _ _ _ _ _ Hc). cbv zeta.
  set (NEW := updated_row now (payment_set bank) c).
  assert (Ha : ∀ r, c_user_id r = c_user_id c →
                    may_access d (Some (c_user_id c)) r = true).
  { intros r Hr. apply may_access_spec. left. by rewrite Hr. }
  rewrite !Ha by done.
  assert (Hcheck : consultations_check NEW = true).
  { unfold consultations_check in *. cbn.
    repeat rewrite andb_true_iff in *. destruct Hvalid as [[[? ?] _] ?].
    repeat split; try done. }
  rewrite Hcheck. cbn [negb].
  rewrite (bool_decide_eq_true_2 (c_user_id NEW = c_user_id c)) by done.
  assert (Hsilent : status_change_notifies c NEW = false).
  { unfold status_change_notifies. cbn. by rewrite bool_decide_eq_false_2 by tauto. }
  unfold store_updated. by rewrite Hsilent.
Qed.

(** X22. Confirming the payment takes the consultation off the payment
    page as the store then stands: in the store the owner's
    confirm-payment on a valid consultation leaves, the user's unpaid
    consultations are the former ones without it, and a load of the page
    on that store does not settle on it. (Nothing keeps it off for good: a
    later statement that sets its payment status back to unpaid is not
    covered.) *)
Theorem paid_consultation_leaves_payment_page `{DT : !datetime_input} now id bank d c
    (Hc : consultations d !! id = Some c)
    (Hvalid : consultations_check c = true) :
  let user := c_user_id c in
  let d' := db_after (confirmPayment now (Some user) (Some id) (Some bank) d) d in
  unpaid_consultations d' user = delete id (unpaid_consultations d user)
  ∧ ∀ r, fetchData_consultation d' user r → ∀ c', r ≠ Some (id, c').
Proof.
  cbv zeta. rewrite (confirmPayment_eq _ _ _ _ _ Hc Hvalid). cbn [db_after].
  set (d' := with_consultations _ d).
  assert (Heq : unpaid_consultations d' (c_user_id c)
                = delete id (unpaid_consultations d (c_user_id c))).
  { apply map_eq. intros k. apply option_eq. intros x.
    rewrite lookup_delete_Some, !unpaid_consultations_Some.
    unfold d'. cbn [consultations with_consultations].
    destruct (decide (k = id)) as [->|Hk].
    - rewrite lookup_insert_eq. split; [|by intros [? _]].
      intros ([= <-] & _ & Hpaid). discriminate Hpaid.
    - rewrite lookup_insert_ne by done.
      split; [intros (? & ? & ?)|intros (? & ? & ? & ?)]; repeat split; done. }
  split; [exact Heq|].
  intros r (l & Hperm & _ & ->) c' Hhead.
  assert (Hel : (id, c') ∈ l) by (destruct l; [done|injection Hhead as ->; by left]).
  rewrite Hperm, elem_of_map_to_list, Heq, lookup_delete_eq in Hel. done.
Qed.

Lemma paid_consultation_leaves_payment_page_witness :
  let d := Scenario.booked in
  let d' := db_after (confirmPayment 200 (Some Scenario.alice) (Some Scenario.booking)
                        (Some 7%positive) d) d in
  consultations d !! Scenario.booking = Some Scenario.stored_booking
  ∧ consultations_check Scenario.stored_booking = true
  ∧ unpaid_consultations d' Scenario.alice
    = delete Scenario.booking (unpaid_consultations d Scenario.alice).
Proof.
  cbv zeta.
  assert (H1 : consultations Scenario.booked !! Scenario.booking
               = Some Scenario.stored_booking) by (vm_compute; reflexivity).
  assert (H2 : consultations_check Scenario.stored_booking = true)
    by (vm_compute; reflexivity).
  split; [exact H1|]. split; [exact H2|].
  exact (proj1 (paid_consultation_leaves_payment_page 200 _ 7%positive _ _ H1 H2)).
Defined.

(** ** What an update of one consultation leaves alone *)

(** X23. An update of one consultation, accepted or not, changes no other
    consultation, no profile and no identity, and it changes or removes no
    notification that was stored before. *)
Theorem update_consultations_touches_one_row `{DT : !datetime_input} now uid id s d k
    (Hother : k ≠ id) :
  let d' := db_after (update_consultations now uid id s d) d in
  consultations d' !! k = consultations d !! k
  ∧ profiles d' = profiles d
  ∧ auth_users d' = auth_users d
  ∧ notifications d ⊆ notifications d'.
Proof.
  cbv zeta. destruct (consultations d !! id) as [OLD|] eqn:Hold.
  2:{ by rewrite update_consultations_missing. }
  rewrite (update_consultations_eq _ _ _ _ _ _ Hold).
  repeat (case_match; [done|]). cbn [db_after]. unfold store_updated.
  case_match; cbn; rewrite lookup_insert_ne by done; repeat split; try done.
  apply insert_subseteq, not_elem_of_dom, is_fresh.
Qed.

Lemma update_consultations_touches_one_row_witness :
  let d := Scenario.approved_booking in
  let d' := db_after (update_consultations 300 (Some Scenario.root) Scenario.booking
                        (Scenario.set_status_to "declined") d) d in
  2%positive ≠ Scenario.booking
  ∧ size (notifications d) = 1%nat
  ∧ size (notifications d') = 2%nat
  ∧ notifications d ⊆ notifications d'.
Proof.
  cbv zeta.
  assert (H : 2%positive ≠ Scenario.booking) by (vm_compute; discriminate).
  split; [exact H|]. split; [vm_compute; reflexivity|]. split; [vm_compute; reflexivity|].
  exact (proj2 (proj2 (proj2 (update_consultations_touches_one_row 300
           (Some Scenario.root) Scenario.booking (Scenario.set_status_to "declined")
           Scenario.approved_booking 2%positive H)))).
Defined.

(** ** Texts that are no date *)

(** The reading used in the concrete runs, on a few texts. *)
Lemma iso_reading_examples :
  iso_date_in "2025-10-01" = true ∧ iso_date_in "2024-02-29" = true
  ∧ iso_date_in "2025-02-29" = false ∧ iso_date_in "2025-02-30" = false
  ∧ iso_date_in "" = false ∧ iso_date_in "not a date" = false
  ∧ iso_time_in "10:30" = true ∧ iso_time_in "10:30:00" = true
  ∧ iso_time_in "25:00" = false ∧ iso_time_in "" = false.
Proof. vm_compute. repeat split. Qed.

(** A booking whose date does not exist and an update that assigns a text
    that is no date are rejected and store nothing; the same update sent
    by a stranger reaches no row. *)
Lemma texts_that_are_no_date_are_rejected :
  let form := {| fd_doctor_name := "Dr. Smith"; fd_consultation_type := "phone_call";
                 fd_preferred_date := "2025-02-30"; fd_preferred_time := "10:30";
                 fd_symptoms := "cough" |} in
  let s := {| set_user_id := None; set_doctor_name := None;
              set_consultation_type := None; set_preferred_date := Some "not a date";
              set_preferred_time := None; set_symptoms := None; set_status := None;
              set_payment_status := None; set_amount := None;
              set_bank_account_id := None; set_admin_notes := None;
              set_created_at := None; set_updated_at := None |} in
  handleSubmit 100 (Some Scenario.alice) form Scenario.signed_up
  = Err invalid_datetime_format
  ∧ update_consultations 200 (Some Scenario.alice) Scenario.booking s Scenario.booked
    = Err invalid_datetime_format
  ∧ update_consultations 200 (Some Scenario.bob) Scenario.booking s Scenario.booked
    = Ok Scenario.booked 0.
Proof. vm_compute. repeat split. Qed.
